(** * simplechar: a bounded-buffer character device

    A shallow embedding of [simplechar.c] (device structure, the file
    operations [device_open], [device_release], [device_read],
    [device_write], [device_ioctl], the status report
    [simplechar_proc_show] and the start-up routine [simplechar_init]),
    followed by the properties of the driver's specification.

    Platform model: LP64 Linux.  [int] and [atomic_t] are 32-bit signed,
    [size_t] and [unsigned long] are 64-bit unsigned, [loff_t] and
    [ssize_t] are 64-bit signed.  Integers are carried as [Z] and every
    conversion and every wrap-around the C code performs is written out.
    The kernel log ([printk]) is not part of the model.  One call runs
    with the mutex held from acquisition to release, so a call is one
    atomic state transition; what [mutex_lock_interruptible] returned is
    an input of the call. *)

From Stdlib Require Import ZArith List Lia Bool.
From Stdlib.Strings Require Import Byte.
From Stdlib Require String DecimalString.
Import ListNotations.
Local Open Scope list_scope.
Local Open Scope Z_scope.

(** ** Machine integers *)

Module CInt.

Definition wrap_unsigned (bits x : Z) : Z := x mod 2 ^ bits.

Definition wrap_signed (bits x : Z) : Z :=
  (x + 2 ^ (bits - 1)) mod 2 ^ bits - 2 ^ (bits - 1).

Definition INT_MIN : Z := - 2 ^ 31.
Definition INT_MAX : Z := 2 ^ 31 - 1.
Definition ULONG_MAX : Z := 2 ^ 64 - 1.
Definition LLONG_MIN : Z := - 2 ^ 63.
Definition LLONG_MAX : Z := 2 ^ 63 - 1.

(** conversion to [int] / [atomic_t] *)
Definition to_int (x : Z) : Z := wrap_signed 32 x.
(** conversion to [size_t], [unsigned long], [unsigned long long] *)
Definition to_ulong (x : Z) : Z := wrap_unsigned 64 x.
(** conversion to [loff_t], [ssize_t], [long long] *)
Definition to_llong (x : Z) : Z := wrap_signed 64 x.

Definition is_int (x : Z) : Prop := INT_MIN <= x <= INT_MAX.
Definition is_ulong (x : Z) : Prop := 0 <= x <= ULONG_MAX.
Definition is_llong (x : Z) : Prop := LLONG_MIN <= x <= LLONG_MAX.

End CInt.
Import CInt.

(** ** Kernel constants used by the driver *)

(** Error numbers of [include/uapi/asm-generic/errno-base.h],
    [errno.h] and [include/linux/errno.h]. *)
Definition EINTR : Z := 4.
Definition ENOMEM : Z := 12.
Definition EFAULT : Z := 14.
Definition EINVAL : Z := 22.
Definition ENOSPC : Z := 28.
Definition ERESTARTSYS : Z := 512.

Definition BUFFER_SIZE_DEFAULT : Z := 1024.
Definition BUFFER_SIZE_MAX : Z := 4096.

(** ** Device structure *)

(** [struct simplechar_dev].  [buffer] is the region [kzalloc] returned,
    as the list of its bytes.  The mutex is held only inside a call and
    the embedded [cdev] carries no data of the driver; neither is a
    field here. *)
Record simplechar_dev : Type := mk_dev {
  buffer : list byte;
  buffer_len : Z;        (* size_t *)
  buffer_size : Z;       (* size_t *)
  open_count : Z;        (* atomic_t *)
  read_count : Z;        (* unsigned long *)
  write_count : Z        (* unsigned long *)
}.

Definition set_buffer (b : list byte) (d : simplechar_dev) : simplechar_dev :=
  mk_dev b (buffer_len d) (buffer_size d) (open_count d)
         (read_count d) (write_count d).
Definition set_buffer_len (n : Z) (d : simplechar_dev) : simplechar_dev :=
  mk_dev (buffer d) n (buffer_size d) (open_count d)
         (read_count d) (write_count d).
Definition set_open_count (n : Z) (d : simplechar_dev) : simplechar_dev :=
  mk_dev (buffer d) (buffer_len d) (buffer_size d) n
         (read_count d) (write_count d).
Definition set_read_count (n : Z) (d : simplechar_dev) : simplechar_dev :=
  mk_dev (buffer d) (buffer_len d) (buffer_size d) (open_count d)
         n (write_count d).
Definition set_write_count (n : Z) (d : simplechar_dev) : simplechar_dev :=
  mk_dev (buffer d) (buffer_len d) (buffer_size d) (open_count d)
         (read_count d) n.

(** ** User-space copies *)

Module Uaccess.

(** Bytes of a kernel region starting at index [off]:
    the pointer [base + off]. *)
Definition at_offset (base : list byte) (off : Z) : list byte :=
  skipn (Z.to_nat off) base.

(** Overwrite [base] from index [off] on with [data]. *)
Definition store (base : list byte) (off : Z) (data : list byte)
  : list byte :=
  firstn (Z.to_nat off) base ++ data
    ++ skipn (Z.to_nat off + length data) base.

(** How many of [n] bytes go through when the user region is
    accessible for [avail] bytes. *)
Definition transferred (avail n : Z) : Z := Z.max 0 (Z.min n avail).

(** [copy_to_user(to, from, n)]: [writable] is the number of bytes the
    user destination accepts before it faults, [from] the kernel bytes
    at the source pointer.  Returns the number of bytes NOT copied and
    the bytes that reached user space. *)
Definition copy_to_user (writable : Z) (from : list byte) (n : Z)
  : Z * list byte :=
  let done := transferred writable n in
  (n - done, firstn (Z.to_nat done) from).

(** [copy_from_user(to, from, n)]: [from] holds the bytes readable at
    the user source pointer (it faults after them).  Returns the number
    of bytes NOT copied and the [n] bytes written to the kernel
    destination: the copied prefix, then zeros for the part that
    faulted, as the kernel pads it. *)
Definition copy_from_user (from : list byte) (n : Z) : Z * list byte :=
  let done := transferred (Z.of_nat (length from)) n in
  (n - done,
   firstn (Z.to_nat done) from ++ repeat x00 (Z.to_nat (n - done))).

End Uaccess.
Import Uaccess.

(** ** File operations *)

(** What a [read] or [write] call leaves behind: the returned [ssize_t],
    the device, the caller's file position [*offset], and the bytes that
    reached the user's destination (none for a write). *)
Record rw_result : Type := mk_rw {
  rw_ret : Z;
  rw_dev : simplechar_dev;
  rw_offset : Z;
  rw_user : list byte
}.

(** [device_open]: [atomic_inc(&simple_dev->open_count)], returns 0. *)
Definition device_open (d : simplechar_dev) : Z * simplechar_dev :=
  (0, set_open_count (to_int (open_count d + 1)) d).

(** [device_release]: [atomic_dec(&simple_dev->open_count)], returns 0. *)
Definition device_release (d : simplechar_dev) : Z * simplechar_dev :=
  (0, set_open_count (to_int (open_count d - 1)) d).

(** [device_read].  [lock] is what [mutex_lock_interruptible] returned
    (0, or [-EINTR] when a signal arrived while waiting); [writable]
    describes the user destination; [len] is a [size_t], [offset] the
    [loff_t] behind the pointer argument. *)
Definition device_read (lock writable : Z) (d : simplechar_dev)
           (len offset : Z) : rw_result :=
  if negb (lock =? 0) then mk_rw (- ERESTARTSYS) d offset []
  else if to_ulong offset >=? buffer_len d then
    (* bytes_read = 0; goto out *)
    mk_rw 0 d offset []
  else
    let bytes_read := to_int (Z.min len (to_ulong (buffer_len d - offset))) in
    let '(uncopied, delivered) :=
      copy_to_user writable (at_offset (buffer d) offset)
                   (to_ulong bytes_read) in
    let ret := to_int uncopied in
    if negb (ret =? 0) then mk_rw (- EFAULT) d offset delivered
    else
      mk_rw bytes_read
            (set_read_count (to_ulong (read_count d + 1)) d)
            (to_llong (offset + bytes_read))
            delivered.

(** [device_write].  [lock] as for [device_read]; [source] holds the
    bytes readable at the user pointer. *)
Definition device_write (lock : Z) (source : list byte) (d : simplechar_dev)
           (len offset : Z) : rw_result :=
  if negb (lock =? 0) then mk_rw (- ERESTARTSYS) d offset []
  else if to_ulong offset >=? buffer_size d then
    mk_rw (- ENOSPC) d offset []
  else
    let bytes_written :=
      to_int (Z.min len (to_ulong (buffer_size d - offset))) in
    let '(uncopied, data) := copy_from_user source (to_ulong bytes_written) in
    let d1 := set_buffer (store (buffer d) offset data) d in
    let ret := to_int uncopied in
    if negb (ret =? 0) then mk_rw (- EFAULT) d1 offset []
    else
      let offset' := to_llong (offset + bytes_written) in
      let d2 := if to_ulong offset' >? buffer_len d1
                then set_buffer_len (to_ulong offset') d1 else d1 in
      mk_rw bytes_written
            (set_write_count (to_ulong (write_count d2 + 1)) d2)
            offset' [].

(** [device_ioctl]: every command succeeds and does nothing. *)
Definition device_ioctl (d : simplechar_dev) (cmd arg : Z)
  : Z * simplechar_dev := (0, d).

(** ** Status report *)

Module Report.

Import String.
Local Open Scope string_scope.

(** [%d], [%zu], [%lu] *)
Definition dec (z : Z) : string :=
  DecimalString.NilZero.string_of_int (Z.to_int z).

Definition newline : string := String (Ascii.ascii_of_nat 10) EmptyString.

Definition line (label : string) (z : Z) (unit : string) : string :=
  label ++ dec z ++ unit ++ newline.

(** [simplechar_proc_show]: reads the device and the two globals
    [major_number] and [debug_level], prints eight lines into the
    [seq_file] and returns 0.  Nothing is written to the device. *)
Definition simplechar_proc_show (major_number debug_level : Z)
           (d : simplechar_dev) : Z * string :=
  (0,
   "SimpleChar Module Status:" ++ newline
   ++ line "  Major Number: " major_number ""
   ++ line "  Buffer Size: " (buffer_size d) " bytes"
   ++ line "  Current Data Length: " (buffer_len d) " bytes"
   ++ line "  Open Count: " (open_count d) ""
   ++ line "  Read Operations: " (read_count d) ""
   ++ line "  Write Operations: " (write_count d) ""
   ++ line "  Debug Level: " debug_level "").

End Report.
Import Report.

(** ** Module initialisation *)

(** Calls into the kernel made by [simplechar_init], in order. *)
Inductive kcall : Type :=
| Kzalloc_dev
| Kzalloc_buffer (size : Z)
| Mutex_init
| Alloc_chrdev_region
| Cdev_init
| Cdev_add
| Class_create
| Device_create
| Proc_create
| Class_destroy
| Cdev_del
| Unregister_chrdev_region
| Kfree_buffer
| Kfree_dev.

(** A pointer-or-error as [class_create] and [device_create] return it:
    [IS_ERR] holds of [Err_ptr e], and [PTR_ERR] is [e]. *)
Inductive kptr : Type :=
| Valid_ptr
| Err_ptr (e : Z).

(** What the kernel answers during one run of [simplechar_init]. *)
Record init_env : Type := mk_env {
  kzalloc_dev_ok : bool;
  kzalloc_buffer_ok : bool;
  alloc_chrdev_region_ret : Z;
  alloc_chrdev_region_major : Z;
  cdev_add_ret : Z;
  class_create_ret : kptr;
  device_create_ret : kptr;
  proc_create_ok : bool
}.

(** The globals after [simplechar_init] and its return value.
    [simple_dev] is [None] while the pointer is NULL and after the
    structure has been freed on a failure path. *)
Record init_result : Type := mk_init {
  init_ret : Z;
  simple_dev : option simplechar_dev;
  debug_level : Z;
  major_number : Z;
  proc_entry : bool;
  init_calls : list kcall
}.

(** The device as the initialisation block fills it in after the two
    [kzalloc]s. *)
Definition fresh_dev (buffer_size_param : Z) : simplechar_dev :=
  mk_dev (repeat x00 (Z.to_nat (to_ulong buffer_size_param)))
         0 (to_ulong buffer_size_param) 0 0 0.

(** The clean-up labels of [simplechar_init], each falling through to
    the next. *)
Definition fail_buffer : list kcall := [Kfree_dev].
Definition fail_chrdev : list kcall := Kfree_buffer :: fail_buffer.
Definition fail_cdev : list kcall := Unregister_chrdev_region :: fail_chrdev.
Definition fail_class : list kcall := Cdev_del :: fail_cdev.
Definition fail_device : list kcall := Class_destroy :: fail_class.

(** [simplechar_init], from the module parameters [buffer_size] and
    [debug_level] (both [int]). *)
Definition simplechar_init (env : init_env)
           (buffer_size_param debug_level_param : Z) : init_result :=
  if (buffer_size_param <=? 0) || (buffer_size_param >? BUFFER_SIZE_MAX) then
    mk_init (- EINVAL) None debug_level_param 0 false []
  else
    let dl := if (debug_level_param <? 0) || (debug_level_param >? 3)
              then 1 else debug_level_param in
    if negb (kzalloc_dev_ok env) then
      mk_init (- ENOMEM) None dl 0 false [Kzalloc_dev]
    else
      let c1 := [Kzalloc_dev; Kzalloc_buffer (to_ulong buffer_size_param)] in
      if negb (kzalloc_buffer_ok env) then
        mk_init (- ENOMEM) None dl 0 false (c1 ++ fail_buffer)
      else
        let dev := fresh_dev buffer_size_param in
        let c2 := c1 ++ [Mutex_init; Alloc_chrdev_region] in
        let ret := alloc_chrdev_region_ret env in
        if ret <? 0 then mk_init ret None dl 0 false (c2 ++ fail_chrdev)
        else
          let major := alloc_chrdev_region_major env in
          let c3 := c2 ++ [Cdev_init; Cdev_add] in
          let ret := cdev_add_ret env in
          if ret <? 0 then mk_init ret None dl major false (c3 ++ fail_cdev)
          else
            let c4 := c3 ++ [Class_create] in
            match class_create_ret env with
            | Err_ptr e =>
                mk_init (to_int e) None dl major false (c4 ++ fail_class)
            | Valid_ptr =>
                let c5 := c4 ++ [Device_create] in
                match device_create_ret env with
                | Err_ptr e =>
                    mk_init (to_int e) None dl major false (c5 ++ fail_device)
                | Valid_ptr =>
                    mk_init 0 (Some dev) dl major (proc_create_ok env)
                            (c5 ++ [Proc_create])
                end
            end.

(** An environment in which every kernel call succeeds. *)
Definition env_ok (major : Z) : init_env :=
  mk_env true true 0 major 0 Valid_ptr Valid_ptr true.

(** ** Sequences of calls *)

(** One call on the loaded module, with everything the outside world
    contributes to it. *)
Inductive operation : Type :=
| Op_open
| Op_release
| Op_read (lock writable len offset : Z)
| Op_write (lock : Z) (source : list byte) (len offset : Z)
| Op_ioctl (cmd arg : Z)
| Op_proc_show (major_number debug_level : Z).

(** The device after one call. *)
Definition run_op (op : operation) (d : simplechar_dev) : simplechar_dev :=
  match op with
  | Op_open => snd (device_open d)
  | Op_release => snd (device_release d)
  | Op_read lock writable len offset =>
      rw_dev (device_read lock writable d len offset)
  | Op_write lock source len offset =>
      rw_dev (device_write lock source d len offset)
  | Op_ioctl cmd arg => snd (device_ioctl d cmd arg)
  | Op_proc_show major dl =>
      let _ := simplechar_proc_show major dl d in d
  end.

Definition run_ops (ops : list operation) (d : simplechar_dev)
  : simplechar_dev :=
  fold_left (fun d op => run_op op d) ops d.

(** ** Well-formed devices *)

(** What [simplechar_init] establishes and every call keeps: the
    capacity is one the parameter check lets through, the data length
    stays within it, the allocation has the recorded size, and each field
    holds a value of its C type. *)
Record dev_ok (d : simplechar_dev) : Prop := mk_dev_ok {
  ok_size : 1 <= buffer_size d <= BUFFER_SIZE_MAX;
  ok_len : 0 <= buffer_len d <= buffer_size d;
  ok_alloc : Z.of_nat (length (buffer d)) = buffer_size d;
  ok_open : is_int (open_count d);
  ok_reads : is_ulong (read_count d);
  ok_writes : is_ulong (write_count d)
}.

(** The same, as a test that evaluates. *)
Definition dev_okb (d : simplechar_dev) : bool :=
  (1 <=? buffer_size d) && (buffer_size d <=? BUFFER_SIZE_MAX)
  && (0 <=? buffer_len d) && (buffer_len d <=? buffer_size d)
  && (Z.of_nat (length (buffer d)) =? buffer_size d)
  && (INT_MIN <=? open_count d) && (open_count d <=? INT_MAX)
  && (0 <=? read_count d) && (read_count d <=? ULONG_MAX)
  && (0 <=? write_count d) && (write_count d <=? ULONG_MAX).

(** The buffer invariant of the data model on its own. *)
Definition length_within_capacity (d : simplechar_dev) : Prop :=
  0 <= buffer_len d <= buffer_size d.

(** The arguments of a call are values of their C types: [len] a
    [size_t], [*offset] a [loff_t]. *)
Definition op_typed (op : operation) : Prop :=
  match op with
  | Op_read _ _ len offset => is_ulong len /\ is_llong offset
  | Op_write _ _ len offset => is_ulong len /\ is_llong offset
  | _ => True
  end.

Definition is_write (op : operation) : bool :=
  match op with
  | Op_write _ _ _ _ => true
  | _ => false
  end.

(** ** Concrete devices *)

Definition digits : list byte :=
  [x30; x31; x32; x33; x34; x35; x36; x37; x38; x39].

(** Capacity 16 after ten bytes have been written at offset 0. *)
Definition scenario_dev : simplechar_dev :=
  mk_dev (digits ++ repeat x00 6) 10 16 0 0 1.

(** The same device with both statistics counters at [ULONG_MAX]. *)
Definition saturated_dev : simplechar_dev :=
  mk_dev (digits ++ repeat x00 6) 10 16 0 ULONG_MAX ULONG_MAX.

(** Calls that succeed without moving a byte: a zero-length write and a
    zero-length read at offset 0.  Each still counts as an operation. *)
Definition empty_write : operation := Op_write 0 [] 0 0.
Definition empty_read : operation := Op_read 0 0 0 0.

(** ** Counting calls and undoing kernel calls *)

Definition is_open (op : operation) : bool :=
  match op with
  | Op_open => true
  | _ => false
  end.

Definition is_release (op : operation) : bool :=
  match op with
  | Op_release => true
  | _ => false
  end.

(** How many calls of a sequence satisfy [p]. *)
Definition count_ops (p : operation -> bool) (ops : list operation) : Z :=
  Z.of_nat (length (filter p ops)).

(** The call that gives back what a kernel call of [simplechar_init]
    obtained; nothing for calls that obtain nothing. *)
Definition release_of (c : kcall) : list kcall :=
  match c with
  | Kzalloc_dev => [Kfree_dev]
  | Kzalloc_buffer _ => [Kfree_buffer]
  | Alloc_chrdev_region => [Unregister_chrdev_region]
  | Cdev_add => [Cdev_del]
  | Class_create => [Class_destroy]
  | _ => []
  end.

(** Undoing a list of completed calls, last one first. *)
Definition unwind (done : list kcall) : list kcall :=
  flat_map release_of (rev done).

Definition is_cleanup (c : kcall) : bool :=
  match c with
  | Class_destroy | Cdev_del | Unregister_chrdev_region
  | Kfree_buffer | Kfree_dev => true
  | _ => false
  end.

(** Everything [simplechar_init] needs from the kernel went well
    ([proc_create] is not needed). *)
Definition kernel_calls_succeed (env : init_env) : Prop :=
  kzalloc_dev_ok env = true
  /\ kzalloc_buffer_ok env = true
  /\ 0 <= alloc_chrdev_region_ret env
  /\ 0 <= cdev_add_ret env
  /\ class_create_ret env = Valid_ptr
  /\ device_create_ret env = Valid_ptr.

(** ** Module unloading *)

(** Calls into the kernel made by [simplechar_exit]: the two that
    [simplechar_init] never makes, and the rest. *)
Inductive unload_call : Type :=
| Proc_remove
| Device_destroy
| Release (c : kcall).

(** The pointer globals [simplechar_exit] tests: [true] and [Some] stand
    for a non-NULL pointer.  The [buffer] pointer inside the device is
    never NULL in a device [simplechar_init] leaves, so its test is
    always taken. *)
Record module_globals : Type := mk_globals {
  g_proc_entry : bool;
  g_simple_device : bool;
  g_simple_class : bool;
  g_simple_dev : option simplechar_dev
}.

(** [simplechar_exit]: the kernel calls it makes, in order. *)
Definition simplechar_exit (g : module_globals) : list unload_call :=
  (if g_proc_entry g then [Proc_remove] else [])
  ++ (if g_simple_device g then [Device_destroy] else [])
  ++ (if g_simple_class g then [Release Class_destroy] else [])
  ++ (match g_simple_dev g with
      | Some _ => [Release Cdev_del]
      | None => []
      end)
  ++ [Release Unregister_chrdev_region]
  ++ (match g_simple_dev g with
      | Some _ => [Release Kfree_buffer; Release Kfree_dev]
      | None => []
      end).

(** The globals after a successful [simplechar_init]: the class and the
    device file were created (both [IS_ERR] tests passed), the device
    structure is in place, and the proc entry is there or not. *)
Definition loaded_globals (r : init_result) (d : simplechar_dev)
  : module_globals :=
  mk_globals (proc_entry r) true true (Some d).

(** ** Facts about the integer conversions *)

Module CIntFacts.

Lemma to_ulong_small (x : Z) : is_ulong x -> to_ulong x = x.
Proof.
  unfold is_ulong, ULONG_MAX, to_ulong, wrap_unsigned. intros H.
  apply Z.mod_small. lia.
Qed.

Lemma to_int_small (x : Z) : is_int x -> to_int x = x.
Proof.
  unfold is_int, INT_MIN, INT_MAX, to_int, wrap_signed. intros H.
  rewrite Z.mod_small; lia.
Qed.

Lemma to_llong_small (x : Z) : is_llong x -> to_llong x = x.
Proof.
  unfold is_llong, LLONG_MIN, LLONG_MAX, to_llong, wrap_signed. intros H.
  rewrite Z.mod_small; lia.
Qed.

Lemma to_ulong_range (x : Z) : is_ulong (to_ulong x).
Proof.
  unfold is_ulong, ULONG_MAX, to_ulong, wrap_unsigned.
  pose proof (Z.mod_pos_bound x (2 ^ 64)). lia.
Qed.

Lemma to_int_range (x : Z) : is_int (to_int x).
Proof.
  unfold is_int, INT_MIN, INT_MAX, to_int, wrap_signed.
  pose proof (Z.mod_pos_bound (x + 2 ^ (32 - 1)) (2 ^ 32)). lia.
Qed.

Lemma to_llong_range (x : Z) : is_llong (to_llong x).
Proof.
  unfold is_llong, LLONG_MIN, LLONG_MAX, to_llong, wrap_signed.
  pose proof (Z.mod_pos_bound (x + 2 ^ (64 - 1)) (2 ^ 64)). lia.
Qed.

(** An [unsigned long] counter after [++]. *)
Lemma ulong_incr (x : Z) :
  is_ulong x ->
  to_ulong (x + 1) = if x =? ULONG_MAX then 0 else x + 1.
Proof.
  intros H. destruct (Z.eqb_spec x ULONG_MAX) as [-> | Hne].
  - reflexivity.
  - apply to_ulong_small. unfold is_ulong in *. lia.
Qed.

(** A negative [loff_t] compares as a huge unsigned number. *)
Lemma to_ulong_negative (x : Z) :
  LLONG_MIN <= x < 0 -> to_ulong x = x + 2 ^ 64.
Proof.
  unfold LLONG_MIN, to_ulong, wrap_unsigned. intros H.
  symmetry. apply Z.mod_unique_pos with (q := -1); lia.
Qed.

End CIntFacts.
Import CIntFacts.

(** Small numbers pass through every conversion of the two copy
    routines unchanged. *)
Ltac int_bounds :=
  unfold is_int, is_ulong, is_llong, INT_MIN, INT_MAX, ULONG_MAX,
    LLONG_MIN, LLONG_MAX, BUFFER_SIZE_MAX in *; lia.

Ltac small_int :=
  repeat match goal with
    | |- context [to_ulong ?x] => rewrite (to_ulong_small x) by int_bounds
    | |- context [to_int ?x] => rewrite (to_int_small x) by int_bounds
    | |- context [to_llong ?x] => rewrite (to_llong_small x) by int_bounds
    end.

(** ** The two copy routines *)

Lemma transferred_bounds (avail n : Z) :
  0 <= n -> 0 <= transferred avail n <= n.
Proof. unfold transferred. lia. Qed.

Lemma transferred_all (avail n : Z) :
  0 <= n -> (n - transferred avail n = 0 <-> n <= Z.max 0 avail).
Proof. unfold transferred. lia. Qed.

Lemma copy_from_user_length (source : list byte) (n : Z) :
  0 <= n -> Z.of_nat (length (snd (copy_from_user source n))) = n.
Proof.
  intros Hn. unfold copy_from_user. simpl.
  pose proof (transferred_bounds (Z.of_nat (length source)) n Hn) as Hb.
  rewrite length_app, repeat_length, length_firstn.
  assert (transferred (Z.of_nat (length source)) n
          <= Z.of_nat (length source)) by (unfold transferred; lia).
  lia.
Qed.

(** A copy from user space that leaves nothing behind delivers the first
    [n] bytes of the source. *)
Lemma copy_from_user_complete (source : list byte) (n : Z) :
  0 <= n -> fst (copy_from_user source n) = 0 ->
  snd (copy_from_user source n) = firstn (Z.to_nat n) source
  /\ n <= Z.of_nat (length source).
Proof.
  intros Hn. unfold copy_from_user. simpl. intros H0.
  apply transferred_all in H0; [| exact Hn].
  assert (Ht : transferred (Z.of_nat (length source)) n = n)
    by (unfold transferred; lia).
  rewrite Ht, Z.sub_diag. simpl. rewrite app_nil_r. split; [reflexivity | lia].
Qed.

(** ** What a call does once the lock is held *)

(** [device_read] below the end of the data. *)
Lemma device_read_locked (writable : Z) (d : simplechar_dev) (len offset : Z) :
  length_within_capacity d -> buffer_size d <= BUFFER_SIZE_MAX ->
  is_ulong len -> 0 <= offset < buffer_len d ->
  device_read 0 writable d len offset =
    let n := Z.min len (buffer_len d - offset) in
    let '(uncopied, delivered) :=
      copy_to_user writable (at_offset (buffer d) offset) n in
    if uncopied =? 0
    then mk_rw n (set_read_count (to_ulong (read_count d + 1)) d)
               (offset + n) delivered
    else mk_rw (- EFAULT) d offset delivered.
Proof.
  unfold length_within_capacity. intros Hl Hs Hlen Hoff.
  unfold device_read. cbn [negb Z.eqb].
  rewrite (to_ulong_small offset)
    by (unfold is_ulong, ULONG_MAX, BUFFER_SIZE_MAX in *; lia).
  rewrite Z.geb_leb.
  destruct (Z.leb_spec (buffer_len d) offset) as [Hc | _]; [lia |].
  small_int. cbv zeta. unfold copy_to_user.
  pose proof (transferred_bounds writable
                (Z.min len (buffer_len d - offset))) as Hb.
  unfold is_ulong in Hlen.
  specialize (Hb ltac:(lia)).
  small_int.
  destruct (Z.eqb_spec
              (Z.min len (buffer_len d - offset)
               - transferred writable (Z.min len (buffer_len d - offset))) 0);
    cbn [negb]; reflexivity.
Qed.

(** [device_write] inside the buffer. *)
Lemma device_write_locked (source : list byte) (d : simplechar_dev)
      (len offset : Z) :
  length_within_capacity d -> buffer_size d <= BUFFER_SIZE_MAX ->
  is_ulong len -> 0 <= offset < buffer_size d ->
  device_write 0 source d len offset =
    let n := Z.min len (buffer_size d - offset) in
    let '(uncopied, data) := copy_from_user source n in
    let d1 := set_buffer (store (buffer d) offset data) d in
    if uncopied =? 0
    then mk_rw n
               (set_write_count (to_ulong (write_count d + 1))
                  (set_buffer_len (Z.max (buffer_len d) (offset + n)) d1))
               (offset + n) []
    else mk_rw (- EFAULT) d1 offset [].
Proof.
  unfold length_within_capacity. intros Hl Hs Hlen Hoff.
  unfold device_write. cbn [negb Z.eqb].
  rewrite (to_ulong_small offset)
    by (unfold is_ulong, ULONG_MAX, BUFFER_SIZE_MAX in *; lia).
  rewrite Z.geb_leb.
  destruct (Z.leb_spec (buffer_size d) offset) as [Hc | _]; [lia |].
  small_int. cbv zeta. unfold copy_from_user.
  set (n := Z.min len (buffer_size d - offset)).
  pose proof (transferred_bounds (Z.of_nat (length source)) n) as Hb.
  unfold is_ulong in Hlen.
  assert (Hn : 0 <= n <= BUFFER_SIZE_MAX)
    by (unfold BUFFER_SIZE_MAX in *; lia).
  specialize (Hb ltac:(lia)).
  small_int.
  destruct (Z.eqb_spec (n - transferred (Z.of_nat (length source)) n) 0)
    as [He | Hne]; cbn [negb]; [| reflexivity].
  cbn [buffer_len set_buffer write_count].
  rewrite Z.gtb_ltb.
  destruct (Z.ltb_spec (buffer_len d) (offset + n)) as [Hlt | Hge].
  - unfold set_write_count, set_buffer_len, set_buffer. cbn.
    small_int. rewrite Z.max_r by lia. reflexivity.
  - unfold set_write_count, set_buffer_len, set_buffer. cbn.
    rewrite Z.max_l by lia. reflexivity.
Qed.

Lemma device_read_interrupted (lock writable : Z) (d : simplechar_dev)
      (len offset : Z) :
  lock <> 0 ->
  device_read lock writable d len offset = mk_rw (- ERESTARTSYS) d offset [].
Proof.
  intros H. unfold device_read.
  destruct (Z.eqb_spec lock 0); [contradiction | reflexivity].
Qed.

Lemma device_write_interrupted (lock : Z) (source : list byte)
      (d : simplechar_dev) (len offset : Z) :
  lock <> 0 ->
  device_write lock source d len offset = mk_rw (- ERESTARTSYS) d offset [].
Proof.
  intros H. unfold device_write.
  destruct (Z.eqb_spec lock 0); [contradiction | reflexivity].
Qed.

(** A file position outside [0, limit) is, as an unsigned number, at or
    above [limit]. *)
Lemma outside_unsigned (limit offset : Z) :
  0 <= limit <= BUFFER_SIZE_MAX -> is_llong offset ->
  offset < 0 \/ limit <= offset ->
  (to_ulong offset >=? limit) = true.
Proof.
  intros Hl Ho Hout. rewrite Z.geb_leb. apply Z.leb_le.
  destruct (Z_lt_le_dec offset 0) as [Hneg | Hpos].
  - rewrite to_ulong_negative by int_bounds. int_bounds.
  - small_int. lia.
Qed.

(** [device_read] at or past the end of the data. *)
Lemma device_read_eof (writable : Z) (d : simplechar_dev) (len offset : Z) :
  length_within_capacity d -> buffer_size d <= BUFFER_SIZE_MAX ->
  is_llong offset -> offset < 0 \/ buffer_len d <= offset ->
  device_read 0 writable d len offset = mk_rw 0 d offset [].
Proof.
  unfold length_within_capacity. intros Hl Hs Ho Hout.
  unfold device_read. cbn [negb Z.eqb].
  rewrite outside_unsigned by (auto; lia). reflexivity.
Qed.

(** [device_write] at or past the end of the buffer. *)
Lemma device_write_beyond (source : list byte) (d : simplechar_dev)
      (len offset : Z) :
  0 <= buffer_size d <= BUFFER_SIZE_MAX ->
  is_llong offset -> offset < 0 \/ buffer_size d <= offset ->
  device_write 0 source d len offset = mk_rw (- ENOSPC) d offset [].
Proof.
  intros Hs Ho Hout. unfold device_write. cbn [negb Z.eqb].
  rewrite outside_unsigned by auto. reflexivity.
Qed.

(** ** Buffer contents *)

Lemma store_length (base : list byte) (off : Z) (data : list byte) :
  0 <= off -> off + Z.of_nat (length data) <= Z.of_nat (length base) ->
  length (store base off data) = length base.
Proof.
  intros H0 H1. unfold store.
  rewrite !length_app, length_firstn, length_skipn. lia.
Qed.

(** Reading back the region a store has just filled. *)
Lemma store_at_offset (base : list byte) (off : Z) (data : list byte) :
  0 <= off <= Z.of_nat (length base) ->
  firstn (length data) (at_offset (store base off data) off) = data.
Proof.
  intros H. unfold store, at_offset.
  set (k := Z.to_nat off).
  assert (Hk : length (firstn k base) = k)
    by (rewrite length_firstn; lia).
  rewrite skipn_app, Hk, Nat.sub_diag.
  rewrite (skipn_all2 (firstn k base)) by lia.
  cbn [skipn app].
  rewrite firstn_app, Nat.sub_diag, firstn_all. cbn [firstn].
  apply app_nil_r.
Qed.

(** ** Preservation of well-formedness *)

(** A read leaves the device alone or bumps [read_count]; nothing else. *)
Lemma device_read_dev (lock writable : Z) (d : simplechar_dev)
      (len offset : Z) :
  rw_dev (device_read lock writable d len offset) = d
  \/ rw_dev (device_read lock writable d len offset)
     = set_read_count (to_ulong (read_count d + 1)) d.
Proof.
  unfold device_read.
  destruct (negb (lock =? 0)); [left; reflexivity |].
  destruct (to_ulong offset >=? buffer_len d); [left; reflexivity |].
  destruct (copy_to_user _ _ _) as [uncopied delivered].
  destruct (negb (to_int uncopied =? 0)); [left | right]; reflexivity.
Qed.

Lemma device_read_dev_ok (lock writable : Z) (d : simplechar_dev)
      (len offset : Z) :
  dev_ok d -> dev_ok (rw_dev (device_read lock writable d len offset)).
Proof.
  intros Hd.
  destruct (device_read_dev lock writable d len offset) as [-> | ->];
    [exact Hd |].
  destruct Hd. constructor; cbn; auto using to_ulong_range.
Qed.

Lemma device_write_dev_ok (lock : Z) (source : list byte)
      (d : simplechar_dev) (len offset : Z) :
  dev_ok d -> is_ulong len -> is_llong offset ->
  dev_ok (rw_dev (device_write lock source d len offset)).
Proof.
  intros Hd Hlen Hoff.
  destruct (Z.eq_dec lock 0) as [-> | Hl];
    [| rewrite device_write_interrupted by exact Hl; exact Hd].
  destruct Hd as [Hs Hb Ha Ho Hr Hw].
  destruct (Z_lt_le_dec offset 0) as [Hneg | Hpos];
    [rewrite device_write_beyond by (auto; lia); constructor; auto |].
  destruct (Z_lt_le_dec offset (buffer_size d)) as [Hin | Hout];
    [| rewrite device_write_beyond by (auto; lia); constructor; auto].
  rewrite device_write_locked by (auto; lia). cbv zeta.
  set (n := Z.min len (buffer_size d - offset)).
  assert (Hn : 0 <= n <= buffer_size d - offset)
    by (unfold is_ulong in Hlen; lia).
  pose proof (copy_from_user_length source n (proj1 Hn)) as Hdata.
  destruct (copy_from_user source n) as [uncopied data]. cbn [snd] in Hdata.
  assert (Hst : Z.of_nat (length (store (buffer d) offset data))
                = buffer_size d)
    by (rewrite store_length; lia).
  destruct (uncopied =? 0); constructor; cbn; auto using to_ulong_range; lia.
Qed.

Lemma run_op_dev_ok (op : operation) (d : simplechar_dev) :
  dev_ok d -> op_typed op -> dev_ok (run_op op d).
Proof.
  intros Hd Ht. destruct op; cbn [run_op op_typed] in *.
  - destruct Hd. constructor; cbn; auto using to_int_range.
  - destruct Hd. constructor; cbn; auto using to_int_range.
  - apply device_read_dev_ok, Hd.
  - destruct Ht. apply device_write_dev_ok; assumption.
  - exact Hd.
  - exact Hd.
Qed.

Lemma run_ops_dev_ok (ops : list operation) (d : simplechar_dev) :
  dev_ok d -> Forall op_typed ops -> dev_ok (run_ops ops d).
Proof.
  revert d. induction ops as [| op ops IH]; intros d Hd Ht; [exact Hd |].
  inversion Ht; subst. cbn. apply IH; [apply run_op_dev_ok |]; assumption.
Qed.

(** Only a write moves the data length. *)
Lemma run_op_keeps_len (op : operation) (d : simplechar_dev) :
  is_write op = false -> buffer_len (run_op op d) = buffer_len d.
Proof.
  intros Hw. destruct op; try discriminate; try reflexivity.
  cbn [run_op].
  destruct (device_read_dev lock writable d len offset) as [-> | ->];
    reflexivity.
Qed.

Lemma run_ops_keeps_len (ops : list operation) (d : simplechar_dev) :
  forallb (fun op => negb (is_write op)) ops = true ->
  buffer_len (run_ops ops d) = buffer_len d.
Proof.
  revert d. induction ops as [| op ops IH]; intros d Hw; [reflexivity |].
  cbn in Hw. apply andb_prop in Hw as [Hop Hrest].
  cbn. rewrite IH by exact Hrest.
  apply run_op_keeps_len. now apply negb_true_iff.
Qed.

(** ** Initialisation *)

Lemma fresh_dev_ok (buffer_size_param : Z) :
  1 <= buffer_size_param <= BUFFER_SIZE_MAX ->
  dev_ok (fresh_dev buffer_size_param) /\
  buffer_size (fresh_dev buffer_size_param) = buffer_size_param.
Proof.
  intros H. unfold fresh_dev. small_int.
  split; [| reflexivity].
  constructor; cbn; try int_bounds.
  rewrite repeat_length. lia.
Qed.

(** The device [simplechar_init] leaves in [simple_dev], when there is
    one, is the freshly filled-in one, and the parameter was in range. *)
Lemma simplechar_init_dev (env : init_env) (bs dl : Z) (d : simplechar_dev) :
  simple_dev (simplechar_init env bs dl) = Some d ->
  d = fresh_dev bs /\ 1 <= bs <= BUFFER_SIZE_MAX
  /\ init_ret (simplechar_init env bs dl) = 0.
Proof.
  unfold simplechar_init.
  destruct (Z.leb_spec bs 0); cbn [orb]; [discriminate |].
  rewrite Z.gtb_ltb.
  destruct (Z.ltb_spec BUFFER_SIZE_MAX bs); [discriminate |].
  destruct (kzalloc_dev_ok env); cbn [negb]; [| discriminate].
  destruct (kzalloc_buffer_ok env); cbn [negb]; [| discriminate].
  destruct (alloc_chrdev_region_ret env <? 0); [discriminate |].
  destruct (cdev_add_ret env <? 0); [discriminate |].
  destruct (class_create_ret env); [| discriminate].
  destruct (device_create_ret env); [| discriminate].
  cbn. intros [= <-]. repeat split; lia.
Qed.

Lemma dev_okb_sound (d : simplechar_dev) : dev_okb d = true -> dev_ok d.
Proof.
  unfold dev_okb. intros H.
  repeat (apply andb_prop in H; destruct H as [H ?]).
  repeat match goal with
         | E : (_ <=? _) = true |- _ => apply Z.leb_le in E
         | E : (_ =? _) = true |- _ => apply Z.eqb_eq in E
         end.
  constructor; unfold is_int, is_ulong; lia.
Qed.

(** ** Reaching a saturated counter *)

Lemma to_ulong_add_idemp (x y : Z) :
  to_ulong (to_ulong x + y) = to_ulong (x + y).
Proof. unfold to_ulong, wrap_unsigned. apply Zplus_mod_idemp_l. Qed.

Lemma set_write_count_same (d : simplechar_dev) :
  set_write_count (write_count d) d = d.
Proof. destruct d; reflexivity. Qed.

Lemma set_read_count_same (d : simplechar_dev) :
  set_read_count (read_count d) d = d.
Proof. destruct d; reflexivity. Qed.

Lemma set_write_count_ok (c : Z) (d : simplechar_dev) :
  dev_ok d -> dev_ok (set_write_count (to_ulong c) d).
Proof.
  intros [Hs Hb Ha Ho Hr Hw].
  constructor; cbn [buffer buffer_len buffer_size open_count read_count
                    write_count set_write_count];
    auto using to_ulong_range.
Qed.

Lemma set_write_count_len (c : Z) (d : simplechar_dev) :
  buffer_len (set_write_count c d) = buffer_len d.
Proof. reflexivity. Qed.

Lemma run_empty_write (d : simplechar_dev) :
  dev_ok d ->
  run_op empty_write d = set_write_count (to_ulong (write_count d + 1)) d.
Proof.
  intros [Hs Hb Ha Ho Hr Hw]. unfold empty_write. cbn [run_op].
  rewrite device_write_locked by (auto; int_bounds). cbv zeta.
  rewrite Z.min_l by lia. cbn.
  rewrite Z.max_l by lia. destruct d; reflexivity.
Qed.

Lemma run_empty_read (d : simplechar_dev) :
  dev_ok d -> 0 < buffer_len d ->
  run_op empty_read d = set_read_count (to_ulong (read_count d + 1)) d.
Proof.
  intros [Hs Hb Ha Ho Hr Hw] Hdata. unfold empty_read. cbn [run_op].
  rewrite device_read_locked by (auto; int_bounds). cbv zeta.
  rewrite Z.min_l by lia. reflexivity.
Qed.

Lemma run_ops_app (l1 l2 : list operation) (d : simplechar_dev) :
  run_ops (l1 ++ l2) d = run_ops l2 (run_ops l1 d).
Proof. apply fold_left_app. Qed.

Lemma run_ops_cons (op : operation) (ops : list operation)
      (d : simplechar_dev) :
  run_ops (op :: ops) d = run_ops ops (run_op op d).
Proof. reflexivity. Qed.

Lemma run_empty_writes (k : nat) (d : simplechar_dev) :
  dev_ok d ->
  run_ops (repeat empty_write k) d
  = set_write_count (to_ulong (write_count d + Z.of_nat k)) d.
Proof.
  revert d. induction k as [| k IH]; intros d Hd.
  - cbn [repeat run_ops fold_left]. rewrite Z.add_0_r.
    rewrite to_ulong_small by (destruct Hd; assumption).
    symmetry. apply set_write_count_same.
  - cbn [repeat]. unfold run_ops in *. cbn [fold_left].
    assert (Ht : op_typed empty_write) by (cbn; int_bounds).
    rewrite IH by (apply run_op_dev_ok; assumption).
    rewrite run_empty_write by exact Hd.
    unfold set_write_count.
    cbn [write_count buffer buffer_len buffer_size open_count read_count].
    rewrite to_ulong_add_idemp. do 2 f_equal. lia.
Qed.

Lemma run_empty_reads (k : nat) (d : simplechar_dev) :
  dev_ok d -> 0 < buffer_len d ->
  run_ops (repeat empty_read k) d
  = set_read_count (to_ulong (read_count d + Z.of_nat k)) d.
Proof.
  revert d. induction k as [| k IH]; intros d Hd Hdata.
  - cbn [repeat run_ops fold_left]. rewrite Z.add_0_r.
    rewrite to_ulong_small by (destruct Hd; assumption).
    symmetry. apply set_read_count_same.
  - cbn [repeat]. unfold run_ops in *. cbn [fold_left].
    assert (Ht : op_typed empty_read) by (cbn; int_bounds).
    rewrite IH;
      [| apply run_op_dev_ok; assumption
       | rewrite run_op_keeps_len by reflexivity; exact Hdata].
    rewrite run_empty_read by assumption.
    unfold set_read_count.
    cbn [write_count buffer buffer_len buffer_size open_count read_count].
    rewrite to_ulong_add_idemp. do 2 f_equal. lia.
Qed.

(** From the freshly loaded module with capacity 16: ten digits are
    written, then [w] further writes and [r] reads succeed. *)
Lemma counters_reachable (w r : nat) :
  exists ops : list operation,
    Forall op_typed ops
    /\ run_ops ops (fresh_dev 16)
       = set_read_count (to_ulong (0 + Z.of_nat r))
           (set_write_count (to_ulong (1 + Z.of_nat w)) scenario_dev).
Proof.
  exists (Op_write 0 digits 10 0
          :: repeat empty_write w ++ repeat empty_read r).
  split.
  - constructor; [cbn; int_bounds |].
    apply Forall_app. split; apply Forall_forall; intros op Hop;
      apply repeat_spec in Hop; subst op; cbn; int_bounds.
  - rewrite run_ops_cons, run_ops_app.
    replace (run_op (Op_write 0 digits 10 0) (fresh_dev 16))
      with scenario_dev by reflexivity.
    assert (Hok : dev_ok scenario_dev) by (apply dev_okb_sound; reflexivity).
    rewrite (run_empty_writes w _ Hok).
    pose proof (set_write_count_ok
                  (write_count scenario_dev + Z.of_nat w) _ Hok) as Hok'.
    rewrite (run_empty_reads r _ Hok')
      by (rewrite set_write_count_len; apply Z.ltb_lt; reflexivity).
    reflexivity.
Qed.

(** [saturated_dev] is a state of the running driver: the module is
    loaded with capacity 16, ten digits are written, and then
    [ULONG_MAX - 1] further writes and [ULONG_MAX] reads succeed. *)
Lemma saturated_dev_reachable :
  simple_dev (simplechar_init (env_ok 240) 16 1) = Some (fresh_dev 16)
  /\ exists ops : list operation,
      Forall op_typed ops /\ run_ops ops (fresh_dev 16) = saturated_dev.
Proof.
  split; [reflexivity |].
  destruct (counters_reachable (Z.to_nat (ULONG_MAX - 1))
                               (Z.to_nat ULONG_MAX)) as (ops & Hty & Hrun).
  exists ops. split; [exact Hty |].
  rewrite Hrun.
  rewrite (Z2Nat.id (ULONG_MAX - 1)) by (unfold ULONG_MAX; lia).
  rewrite (Z2Nat.id ULONG_MAX) by (unfold ULONG_MAX; lia).
  reflexivity.
Qed.

(** * Properties of the specification *)

(** ** Successful writes *)

(** C1, as stated, fails on the write counter: on [saturated_dev]
    (reachable, see [saturated_dev_reachable]) [write_count] is
    [ULONG_MAX]; a successful one-byte write at offset 0 returns 1 and
    leaves [write_count] at 0, not at [ULONG_MAX + 1]. *)
Lemma device_write_count_wraps :
  dev_ok saturated_dev
  /\ is_ulong 1
  /\ 0 <= 0 < buffer_size saturated_dev
  /\ fst (copy_from_user [x41] (Z.min 1 (buffer_size saturated_dev - 0))) = 0
  /\ rw_ret (device_write 0 [x41] saturated_dev 1 0) = 1
  /\ write_count (rw_dev (device_write 0 [x41] saturated_dev 1 0)) = 0
  /\ write_count (rw_dev (device_write 0 [x41] saturated_dev 1 0))
     <> write_count saturated_dev + 1.
Proof.
  split; [apply dev_okb_sound; reflexivity |].
  split; [unfold is_ulong, ULONG_MAX; lia |].
  split; [cbn; lia |].
  repeat split; try reflexivity.
  vm_compute. discriminate.
Qed.

(** C1 (amended): a write of [len] bytes at [0 <= offset < capacity]
    that acquires the lock and whose copy succeeds copies
    [n = min(len, capacity - offset)] bytes of the source into the
    storage at [offset], advances the file position by [n], makes the
    data length [max(buffer_len, offset + n)] (so it never shrinks),
    returns [n], and increments [write_count] as an [unsigned long]:
    by exactly 1 unless it was [ULONG_MAX], from where it wraps to 0.
    With capacity 16 and data length 10, ten bytes at offset 10 copy 6
    bytes, return 6 and leave the data length at 16. *)
Theorem device_write_success (lock : Z) (source : list byte)
        (d : simplechar_dev) (len offset n : Z) (r : rw_result) :
  dev_ok d -> is_ulong len -> 0 <= offset < buffer_size d ->
  lock = 0 ->
  n = Z.min len (buffer_size d - offset) ->
  fst (copy_from_user source n) = 0 ->
  r = device_write lock source d len offset ->
  rw_ret r = n
  /\ firstn (Z.to_nat n) (at_offset (buffer (rw_dev r)) offset)
     = firstn (Z.to_nat n) source
  /\ Z.of_nat (length (firstn (Z.to_nat n) source)) = n
  /\ rw_offset r = offset + n
  /\ buffer_len (rw_dev r) = Z.max (buffer_len d) (offset + n)
  /\ buffer_len d <= buffer_len (rw_dev r)
  /\ write_count (rw_dev r)
     = (if write_count d =? ULONG_MAX then 0 else write_count d + 1)
  /\ (buffer_size d = 16 -> buffer_len d = 10 -> len = 10 -> offset = 10 ->
      n = 6 /\ rw_ret r = 6 /\ buffer_len (rw_dev r) = 16).
Proof.
  intros Hd Hlen Hoff -> Hn Hcopy ->.
  pose proof Hd as [Hs Hb Ha Ho Hr Hw].
  rewrite device_write_locked by (auto; lia). cbv zeta. rewrite <- Hn.
  assert (Hn0 : 0 <= n <= buffer_size d - offset)
    by (unfold is_ulong in Hlen; lia).
  destruct (copy_from_user_complete source n (proj1 Hn0) Hcopy)
    as [Hdata Hsrc].
  destruct (copy_from_user source n) as [uncopied data].
  cbn [fst snd] in Hcopy, Hdata. subst uncopied data. cbn [Z.eqb].
  cbn [rw_ret rw_dev rw_offset set_write_count set_buffer_len set_buffer
       buffer buffer_len write_count].
  assert (Hlf : length (firstn (Z.to_nat n) source) = Z.to_nat n)
    by (rewrite length_firstn; lia).
  repeat split.
  - rewrite <- Hlf at 1. apply store_at_offset. lia.
  - lia.
  - lia.
  - apply ulong_incr, Hw.
  - lia.
  - lia.
  - lia.
Qed.

(** The scenario of the specification: capacity 16, ten bytes present,
    ten more written at offset 10. *)
Lemma device_write_success_scenario :
  dev_ok scenario_dev
  /\ rw_ret (device_write 0 digits scenario_dev 10 10) = 6
  /\ rw_offset (device_write 0 digits scenario_dev 10 10) = 16
  /\ buffer_len (rw_dev (device_write 0 digits scenario_dev 10 10)) = 16
  /\ write_count (rw_dev (device_write 0 digits scenario_dev 10 10)) = 2.
Proof.
  assert (Hok : dev_ok scenario_dev) by (apply dev_okb_sound; reflexivity).
  assert (Hlen : is_ulong 10) by (unfold is_ulong, ULONG_MAX; lia).
  assert (Hoff : 0 <= 10 < buffer_size scenario_dev) by (cbn; lia).
  pose proof (device_write_success 0 digits scenario_dev 10 10 6
                (device_write 0 digits scenario_dev 10 10)
                Hok Hlen Hoff eq_refl eq_refl eq_refl eq_refl)
    as (Hret & _ & _ & Hpos & Hmax & _ & Hcnt & _).
  exact (conj Hok (conj Hret (conj Hpos (conj Hmax Hcnt)))).
Defined.

(** ** Successful reads *)

(** C2, as stated, fails on the read counter: on [saturated_dev]
    (reachable, see [saturated_dev_reachable]) [read_count] is
    [ULONG_MAX]; a successful one-byte read at offset 0 returns 1 and
    leaves [read_count] at 0, not at [ULONG_MAX + 1]. *)
Lemma device_read_count_wraps :
  dev_ok saturated_dev
  /\ is_ulong 1
  /\ 0 <= 0 < buffer_len saturated_dev
  /\ fst (copy_to_user 1 (at_offset (buffer saturated_dev) 0)
            (Z.min 1 (buffer_len saturated_dev - 0))) = 0
  /\ rw_ret (device_read 0 1 saturated_dev 1 0) = 1
  /\ rw_user (device_read 0 1 saturated_dev 1 0) = [x30]
  /\ read_count (rw_dev (device_read 0 1 saturated_dev 1 0)) = 0
  /\ read_count (rw_dev (device_read 0 1 saturated_dev 1 0))
     <> read_count saturated_dev + 1.
Proof.
  split; [apply dev_okb_sound; reflexivity |].
  split; [unfold is_ulong, ULONG_MAX; lia |].
  split; [cbn; lia |].
  repeat split; try reflexivity.
  vm_compute. discriminate.
Qed.

(** C2 (amended): a read of [len] bytes at [0 <= offset < buffer_len]
    that acquires the lock and whose copy succeeds hands the caller
    exactly the [n = min(len, buffer_len - offset)] bytes
    [buffer[offset .. offset + n)], advances the file position by [n],
    returns [n], and increments [read_count] as an [unsigned long]:
    by exactly 1 unless it was [ULONG_MAX], from where it wraps to 0. *)
Theorem device_read_success (lock writable : Z) (d : simplechar_dev)
        (len offset n : Z) (r : rw_result) :
  dev_ok d -> is_ulong len -> 0 <= offset < buffer_len d ->
  lock = 0 ->
  n = Z.min len (buffer_len d - offset) ->
  fst (copy_to_user writable (at_offset (buffer d) offset) n) = 0 ->
  r = device_read lock writable d len offset ->
  rw_ret r = n
  /\ rw_user r = firstn (Z.to_nat n) (skipn (Z.to_nat offset) (buffer d))
  /\ Z.of_nat (length (rw_user r)) = n
  /\ rw_offset r = offset + n
  /\ read_count (rw_dev r)
     = (if read_count d =? ULONG_MAX then 0 else read_count d + 1).
Proof.
  intros Hd Hlen Hoff -> Hn Hcopy ->.
  pose proof Hd as [Hs Hb Ha Ho Hr Hw].
  rewrite device_read_locked by (auto; lia). cbv zeta. rewrite <- Hn.
  assert (Hn0 : 0 <= n <= buffer_len d - offset)
    by (unfold is_ulong in Hlen; lia).
  unfold copy_to_user in *. cbn [fst] in Hcopy.
  assert (Ht : transferred writable n = n) by lia.
  rewrite Ht, Z.sub_diag. cbn [Z.eqb].
  cbn [rw_ret rw_dev rw_offset rw_user set_read_count read_count].
  unfold at_offset.
  repeat split.
  - rewrite length_firstn, length_skipn. lia.
  - apply ulong_incr, Hr.
Qed.

Lemma device_read_success_scenario :
  dev_ok scenario_dev
  /\ rw_ret (device_read 0 64 scenario_dev 20 0) = 10
  /\ rw_user (device_read 0 64 scenario_dev 20 0) = digits
  /\ rw_offset (device_read 0 64 scenario_dev 20 0) = 10
  /\ read_count (rw_dev (device_read 0 64 scenario_dev 20 0)) = 1.
Proof.
  assert (Hok : dev_ok scenario_dev) by (apply dev_okb_sound; reflexivity).
  assert (Hlen : is_ulong 20) by (unfold is_ulong, ULONG_MAX; lia).
  assert (Hoff : 0 <= 0 < buffer_len scenario_dev) by (cbn; lia).
  pose proof (device_read_success 0 64 scenario_dev 20 0 10
                (device_read 0 64 scenario_dev 20 0)
                Hok Hlen Hoff eq_refl eq_refl eq_refl eq_refl)
    as (Hret & Huser & _ & Hpos & Hcnt).
  exact (conj Hok (conj Hret (conj Huser (conj Hpos Hcnt)))).
Defined.

(** ** Round trip *)

(** C3: writing a byte sequence [B] no longer than the capacity at
    offset 0 and then reading [length B] bytes from offset 0, both copies
    succeeding and nothing in between, returns exactly [B].  ([rest] is
    whatever user memory follows [B]; [writable] is the room at the
    reader's destination.) *)
Theorem write_read_roundtrip (B rest : list byte) (d : simplechar_dev)
        (writable : Z) (w r : rw_result) :
  dev_ok d ->
  Z.of_nat (length B) <= buffer_size d ->
  Z.of_nat (length B) <= writable ->
  w = device_write 0 (B ++ rest) d (Z.of_nat (length B)) 0 ->
  r = device_read 0 writable (rw_dev w) (Z.of_nat (length B)) 0 ->
  rw_ret w = Z.of_nat (length B)
  /\ rw_ret r = Z.of_nat (length B)
  /\ rw_user r = B.
Proof.
  intros Hd Hcap Hroom -> ->.
  assert (Hlen : is_ulong (Z.of_nat (length B)))
    by (destruct Hd; int_bounds).
  assert (Hoff : is_llong 0) by int_bounds.
  pose proof (device_write_dev_ok 0 (B ++ rest) d (Z.of_nat (length B)) 0
                Hd Hlen Hoff) as Hd'.
  pose proof Hd as [Hs Hb Ha Ho Hr Hw].
  revert Hd'. rewrite device_write_locked by (auto; lia). cbv zeta.
  rewrite Z.sub_0_r, Z.min_l by lia.
  unfold copy_from_user.
  assert (Ht : transferred (Z.of_nat (length (B ++ rest)))
                 (Z.of_nat (length B)) = Z.of_nat (length B))
    by (unfold transferred; rewrite length_app; lia).
  rewrite Ht, Z.sub_diag, Nat2Z.id. cbn [Z.eqb Z.to_nat repeat].
  rewrite firstn_app, Nat.sub_diag, firstn_all. cbn [firstn].
  rewrite !app_nil_r.
  set (d' := set_write_count _ _). cbn [rw_ret rw_dev]. intros Hd'.
  split; [reflexivity |].
  assert (Hbl : buffer_len d' = Z.max (buffer_len d) (Z.of_nat (length B)))
    by reflexivity.
  destruct (Z.eq_dec (buffer_len d') 0) as [Hz | Hnz].
  - assert (HB : B = []) by (destruct B; [reflexivity | cbn in *; lia]).
    rewrite device_read_eof; destruct Hd'; auto; try lia.
    subst B. split; reflexivity.
  - destruct Hd' as [Hs' Hb' Ha' Ho' Hr' Hw'].
    rewrite device_read_locked by (auto; lia). cbv zeta.
    rewrite Z.sub_0_r, Z.min_l by lia.
    unfold copy_to_user.
    assert (Ht' : transferred writable (Z.of_nat (length B))
                  = Z.of_nat (length B)) by (unfold transferred; lia).
    rewrite Ht', Z.sub_diag, Nat2Z.id. cbn [Z.eqb rw_ret rw_user].
    split; [reflexivity |].
    subst d'. cbn [buffer set_write_count set_buffer_len set_buffer].
    apply store_at_offset. lia.
Qed.

Lemma write_read_roundtrip_digits :
  dev_ok (fresh_dev 16)
  /\ Z.of_nat (length digits) <= buffer_size (fresh_dev 16)
  /\ rw_user
       (device_read 0 10
          (rw_dev (device_write 0 (digits ++ []) (fresh_dev 16)
                     (Z.of_nat (length digits)) 0))
          (Z.of_nat (length digits)) 0) = digits.
Proof.
  assert (Hok : dev_ok (fresh_dev 16)) by (apply dev_okb_sound; reflexivity).
  assert (Hcap : Z.of_nat (length digits) <= buffer_size (fresh_dev 16))
    by (cbn; lia).
  assert (Hroom : Z.of_nat (length digits) <= 10) by (cbn; lia).
  pose proof (write_read_roundtrip digits [] (fresh_dev 16) 10 _ _
                Hok Hcap Hroom eq_refl eq_refl) as (_ & _ & Huser).
  exact (conj Hok (conj Hcap Huser)).
Defined.

(** ** The buffer invariant *)

Lemma device_write_keeps_invariant (lock : Z) (source : list byte)
      (d : simplechar_dev) (len offset : Z) :
  length_within_capacity d -> buffer_size d <= BUFFER_SIZE_MAX ->
  is_ulong len -> is_llong offset ->
  length_within_capacity (rw_dev (device_write lock source d len offset))
  /\ buffer_size (rw_dev (device_write lock source d len offset))
     = buffer_size d.
Proof.
  intros Hinv Hs Hlen Hoff. pose proof Hinv as Hb.
  unfold length_within_capacity in Hb.
  destruct (Z.eq_dec lock 0) as [-> | Hl];
    [| rewrite device_write_interrupted by exact Hl; auto].
  destruct (Z_lt_le_dec offset 0) as [Hneg | Hpos];
    [rewrite device_write_beyond by (auto; lia); auto |].
  destruct (Z_lt_le_dec offset (buffer_size d)) as [Hin | Hout];
    [| rewrite device_write_beyond by (auto; lia); auto].
  rewrite device_write_locked by (auto; lia). cbv zeta.
  destruct (copy_from_user source (Z.min len (buffer_size d - offset)))
    as [uncopied data].
  unfold length_within_capacity, is_ulong in *.
  destruct (uncopied =? 0); cbn; split; lia.
Qed.

(** C4: the data length is 0 in the device [simplechar_init] constructs,
    and [0 <= buffer_len <= buffer_size] is kept by every call (open,
    release, read, write, ioctl, status report) on every path, whatever
    the lock and the user copies do, from every device that satisfies it
    and has a capacity the parameter check lets through; the capacity
    itself never changes. *)
Theorem length_within_capacity_invariant :
  (forall (env : init_env) (bs dl : Z) (d : simplechar_dev),
      simple_dev (simplechar_init env bs dl) = Some d ->
      buffer_len d = 0 /\ length_within_capacity d
      /\ buffer_size d <= BUFFER_SIZE_MAX)
  /\ (forall (op : operation) (d : simplechar_dev),
         length_within_capacity d -> buffer_size d <= BUFFER_SIZE_MAX ->
         op_typed op ->
         length_within_capacity (run_op op d)
         /\ buffer_size (run_op op d) = buffer_size d).
Proof.
  split.
  - intros env bs dl d Hinit.
    apply simplechar_init_dev in Hinit as (-> & Hbs & _).
    destruct (fresh_dev_ok bs Hbs) as [[Hs Hb _ _ _ _] Hsz].
    split; [reflexivity |]. split; [exact Hb | lia].
  - intros op d Hinv Hs Ht.
    destruct op; cbn [run_op op_typed] in *; auto.
    + destruct (device_read_dev lock writable d len offset) as [-> | ->];
        auto.
    + destruct Ht. apply device_write_keeps_invariant; assumption.
Qed.

Lemma length_within_capacity_scenario :
  simple_dev (simplechar_init (env_ok 240) 16 1) = Some (fresh_dev 16)
  /\ buffer_len (fresh_dev 16) = 0
  /\ length_within_capacity (fresh_dev 16)
  /\ length_within_capacity
       (run_op (Op_write 0 digits 10 10) (run_op (Op_write 0 digits 10 0)
                                            (fresh_dev 16))).
Proof.
  destruct length_within_capacity_invariant as [Hinit Hstep].
  assert (Hi : simple_dev (simplechar_init (env_ok 240) 16 1)
               = Some (fresh_dev 16)) by reflexivity.
  destruct (Hinit (env_ok 240) 16 1 (fresh_dev 16) Hi) as (Hz & Hinv & Hs).
  assert (Ht1 : op_typed (Op_write 0 digits 10 0)) by (cbn; int_bounds).
  assert (Ht2 : op_typed (Op_write 0 digits 10 10)) by (cbn; int_bounds).
  destruct (Hstep _ _ Hinv Hs Ht1) as [Hinv1 Hs1].
  assert (Hs1' : buffer_size (run_op (Op_write 0 digits 10 0) (fresh_dev 16))
                 <= BUFFER_SIZE_MAX) by (rewrite Hs1; exact Hs).
  destruct (Hstep _ _ Hinv1 Hs1' Ht2) as [Hinv2 _].
  exact (conj Hi (conj Hz (conj Hinv Hinv2))).
Defined.

(** ** Writes beyond the buffer *)

(** C5: a write at [offset >= capacity] that acquires the lock returns
    [-ENOSPC] and leaves the storage, the data length, both counters and
    the file position as they were. *)
Theorem device_write_capacity_exceeded (lock : Z) (source : list byte)
        (d : simplechar_dev) (len offset : Z) (r : rw_result) :
  dev_ok d -> is_llong offset -> lock = 0 ->
  buffer_size d <= offset ->
  r = device_write lock source d len offset ->
  rw_ret r = - ENOSPC
  /\ buffer (rw_dev r) = buffer d
  /\ buffer_len (rw_dev r) = buffer_len d
  /\ write_count (rw_dev r) = write_count d
  /\ read_count (rw_dev r) = read_count d
  /\ rw_offset r = offset
  /\ rw_dev r = d.
Proof.
  intros [Hs _ _ _ _ _] Hoff -> Hout ->.
  rewrite device_write_beyond by (auto; lia).
  cbn. repeat split; reflexivity.
Qed.

Lemma device_write_capacity_exceeded_at_capacity :
  dev_ok scenario_dev
  /\ buffer_size scenario_dev <= 16
  /\ rw_ret (device_write 0 digits scenario_dev 10 16) = - ENOSPC
  /\ buffer_len (rw_dev (device_write 0 digits scenario_dev 10 16)) = 10.
Proof.
  assert (Hok : dev_ok scenario_dev) by (apply dev_okb_sound; reflexivity).
  assert (Hoff : is_llong 16) by int_bounds.
  assert (Hout : buffer_size scenario_dev <= 16) by (cbn; lia).
  pose proof (device_write_capacity_exceeded 0 digits scenario_dev 10 16 _
                Hok Hoff eq_refl Hout eq_refl)
    as (Hret & _ & Hlen & _).
  exact (conj Hok (conj Hout (conj Hret Hlen))).
Defined.

(** ** Reads at the end of the data *)

(** C6: a read at [offset >= buffer_len] that acquires the lock returns
    0 whatever length is asked for, delivers nothing, and leaves the
    device (storage, data length, counters) and the file position as
    they were.  In particular, as long as no write has been issued since
    [simplechar_init], every read that acquires the lock returns 0, at
    any file position. *)
Theorem device_read_end_of_data :
  (forall (lock writable : Z) (d : simplechar_dev) (len offset : Z)
          (r : rw_result),
      dev_ok d -> is_llong offset -> lock = 0 ->
      buffer_len d <= offset ->
      r = device_read lock writable d len offset ->
      rw_ret r = 0 /\ rw_user r = []
      /\ read_count (rw_dev r) = read_count d
      /\ buffer_len (rw_dev r) = buffer_len d
      /\ buffer (rw_dev r) = buffer d
      /\ rw_offset r = offset
      /\ rw_dev r = d)
  /\ (forall (env : init_env) (bs dl : Z) (d0 : simplechar_dev)
             (ops : list operation) (lock writable len offset : Z)
             (r : rw_result),
         simple_dev (simplechar_init env bs dl) = Some d0 ->
         Forall op_typed ops ->
         forallb (fun op => negb (is_write op)) ops = true ->
         is_llong offset -> lock = 0 ->
         r = device_read lock writable (run_ops ops d0) len offset ->
         rw_ret r = 0 /\ rw_user r = []).
Proof.
  split.
  - intros lock writable d len offset r [Hs Hb _ _ _ _] Hoff -> Heof ->.
    rewrite device_read_eof by (auto; lia).
    cbn. repeat split; reflexivity.
  - intros env bs dl d0 ops lock writable len offset r
           Hinit Hty Hnw Hoff -> ->.
    apply simplechar_init_dev in Hinit as (-> & Hbs & _).
    destruct (fresh_dev_ok bs Hbs) as [Hd0 _].
    pose proof (run_ops_dev_ok ops _ Hd0 Hty) as [Hs Hb _ _ _ _].
    pose proof (run_ops_keeps_len ops (fresh_dev bs) Hnw) as Hlen.
    cbn [buffer_len fresh_dev] in Hlen.
    rewrite device_read_eof; auto; lia.
Qed.

Lemma device_read_end_of_data_scenario :
  dev_ok scenario_dev
  /\ rw_ret (device_read 0 64 scenario_dev 5 10) = 0
  /\ rw_ret (device_read 0 64
               (run_ops [Op_open; Op_read 0 64 100 0; Op_release]
                        (fresh_dev 16)) 100 0) = 0.
Proof.
  destruct device_read_end_of_data as [Heof Hfresh].
  assert (Hok : dev_ok scenario_dev) by (apply dev_okb_sound; reflexivity).
  assert (Hoff : is_llong 10) by int_bounds.
  assert (Hge : buffer_len scenario_dev <= 10) by (cbn; lia).
  pose proof (Heof 0 64 scenario_dev 5 10 _ Hok Hoff eq_refl Hge eq_refl)
    as (Hret & _).
  assert (Hi : simple_dev (simplechar_init (env_ok 240) 16 1)
               = Some (fresh_dev 16)) by reflexivity.
  assert (Hty : Forall op_typed [Op_open; Op_read 0 64 100 0; Op_release])
    by (repeat constructor; int_bounds).
  assert (Hoff0 : is_llong 0) by int_bounds.
  pose proof (Hfresh (env_ok 240) 16 1 (fresh_dev 16)
                [Op_open; Op_read 0 64 100 0; Op_release] 0 64 100 0 _
                Hi Hty eq_refl Hoff0 eq_refl eq_refl) as (Hret0 & _).
  exact (conj Hok (conj Hret Hret0)).
Defined.

(** ** Failed user copies *)

(** C7: when the user-space copy of a read or of a write fails
    ([copy_to_user] or [copy_from_user] reports bytes left over), the
    call returns [-EFAULT] and the file position, both counters and the
    data length are as before the call. *)
Theorem copy_fault_keeps_state (writable : Z) (source : list byte)
        (d : simplechar_dev) (len offset : Z) :
  dev_ok d -> is_ulong len ->
  (0 <= offset < buffer_len d ->
   fst (copy_to_user writable (at_offset (buffer d) offset)
          (Z.min len (buffer_len d - offset))) <> 0 ->
   rw_ret (device_read 0 writable d len offset) = - EFAULT
   /\ rw_offset (device_read 0 writable d len offset) = offset
   /\ read_count (rw_dev (device_read 0 writable d len offset))
      = read_count d
   /\ write_count (rw_dev (device_read 0 writable d len offset))
      = write_count d
   /\ buffer_len (rw_dev (device_read 0 writable d len offset))
      = buffer_len d)
  /\ (0 <= offset < buffer_size d ->
      fst (copy_from_user source (Z.min len (buffer_size d - offset))) <> 0 ->
      rw_ret (device_write 0 source d len offset) = - EFAULT
      /\ rw_offset (device_write 0 source d len offset) = offset
      /\ read_count (rw_dev (device_write 0 source d len offset))
         = read_count d
      /\ write_count (rw_dev (device_write 0 source d len offset))
         = write_count d
      /\ buffer_len (rw_dev (device_write 0 source d len offset))
         = buffer_len d).
Proof.
  intros [Hs Hb _ _ _ _] Hlen. split; intros Hoff Hcopy.
  - rewrite device_read_locked by (auto; lia). cbv zeta.
    destruct (copy_to_user _ _ _) as [uncopied delivered].
    cbn [fst] in Hcopy.
    destruct (Z.eqb_spec uncopied 0); [contradiction |].
    cbn. repeat split; reflexivity.
  - rewrite device_write_locked by (auto; lia). cbv zeta.
    destruct (copy_from_user _ _) as [uncopied data].
    cbn [fst] in Hcopy.
    destruct (Z.eqb_spec uncopied 0); [contradiction |].
    cbn. repeat split; reflexivity.
Qed.

Lemma copy_fault_keeps_state_scenario :
  dev_ok scenario_dev
  /\ rw_ret (device_read 0 3 scenario_dev 20 2) = - EFAULT
  /\ rw_offset (device_read 0 3 scenario_dev 20 2) = 2
  /\ rw_ret (device_write 0 [x41; x42] scenario_dev 10 2) = - EFAULT
  /\ write_count (rw_dev (device_write 0 [x41; x42] scenario_dev 10 2)) = 1.
Proof.
  assert (Hok : dev_ok scenario_dev) by (apply dev_okb_sound; reflexivity).
  assert (Hlen20 : is_ulong 20) by int_bounds.
  assert (Hlen10 : is_ulong 10) by int_bounds.
  assert (Hr : 0 <= 2 < buffer_len scenario_dev) by (cbn; lia).
  assert (Hw : 0 <= 2 < buffer_size scenario_dev) by (cbn; lia).
  destruct (copy_fault_keeps_state 3 [] scenario_dev 20 2 Hok Hlen20)
    as [Hread _].
  destruct (copy_fault_keeps_state 0 [x41; x42] scenario_dev 10 2 Hok Hlen10)
    as [_ Hwrite].
  destruct (Hread Hr ltac:(vm_compute; discriminate)) as (Hret & Hpos & _).
  destruct (Hwrite Hw ltac:(vm_compute; discriminate))
    as (Hret' & _ & _ & Hcnt & _).
  exact (conj Hok (conj Hret (conj Hpos (conj Hret' Hcnt)))).
Defined.

(** ** Interrupted lock acquisition *)

(** A call that holds the lock returns a byte count, [-EFAULT] or
    [-ENOSPC]. *)
Lemma device_read_locked_ret (writable : Z) (d : simplechar_dev)
      (len offset : Z) :
  dev_ok d -> is_ulong len -> is_llong offset ->
  0 <= rw_ret (device_read 0 writable d len offset)
  \/ rw_ret (device_read 0 writable d len offset) = - EFAULT.
Proof.
  intros [Hs Hb _ _ _ _] Hlen Hoff.
  destruct (Z_lt_le_dec offset 0) as [Hneg | Hpos];
    [rewrite device_read_eof by (auto; lia); left; cbn; lia |].
  destruct (Z_lt_le_dec offset (buffer_len d)) as [Hin | Hout];
    [| rewrite device_read_eof by (auto; lia); left; cbn; lia].
  rewrite device_read_locked by (auto; lia). cbv zeta.
  destruct (copy_to_user _ _ _) as [uncopied delivered].
  unfold is_ulong in Hlen.
  destruct (uncopied =? 0); [left | right]; cbn; lia.
Qed.

Lemma device_write_locked_ret (source : list byte) (d : simplechar_dev)
      (len offset : Z) :
  dev_ok d -> is_ulong len -> is_llong offset ->
  0 <= rw_ret (device_write 0 source d len offset)
  \/ rw_ret (device_write 0 source d len offset) = - EFAULT
  \/ rw_ret (device_write 0 source d len offset) = - ENOSPC.
Proof.
  intros [Hs Hb _ _ _ _] Hlen Hoff.
  destruct (Z_lt_le_dec offset 0) as [Hneg | Hpos];
    [rewrite device_write_beyond by (auto; lia); auto |].
  destruct (Z_lt_le_dec offset (buffer_size d)) as [Hin | Hout];
    [| rewrite device_write_beyond by (auto; lia); auto].
  rewrite device_write_locked by (auto; lia). cbv zeta.
  destruct (copy_from_user _ _) as [uncopied data].
  unfold is_ulong in Hlen.
  destruct (uncopied =? 0); [left | right; left]; cbn; lia.
Qed.

(** C8: a read or write whose wait for the lock is interrupted
    ([mutex_lock_interruptible] returns non-zero) returns [-ERESTARTSYS]
    at once: nothing is copied and the storage, the data length, both
    counters and the file position are untouched.  Conversely a call
    that acquires the lock never returns [-ERESTARTSYS]. *)
Theorem interrupted_call_is_retryable :
  (forall (lock writable : Z) (source : list byte) (d : simplechar_dev)
          (len offset : Z),
      lock <> 0 ->
      (rw_ret (device_read lock writable d len offset) = - ERESTARTSYS
       /\ rw_dev (device_read lock writable d len offset) = d
       /\ rw_offset (device_read lock writable d len offset) = offset
       /\ rw_user (device_read lock writable d len offset) = [])
      /\ (rw_ret (device_write lock source d len offset) = - ERESTARTSYS
          /\ rw_dev (device_write lock source d len offset) = d
          /\ rw_offset (device_write lock source d len offset) = offset))
  /\ (forall (lock writable : Z) (source : list byte) (d : simplechar_dev)
             (len offset : Z),
         dev_ok d -> is_ulong len -> is_llong offset ->
         lock = 0 ->
         rw_ret (device_read lock writable d len offset) <> - ERESTARTSYS
         /\ rw_ret (device_write lock source d len offset)
            <> - ERESTARTSYS).
Proof.
  split.
  - intros lock writable source d len offset Hl.
    rewrite device_read_interrupted, device_write_interrupted by exact Hl.
    cbn. repeat split; reflexivity.
  - intros lock writable source d len offset Hd Hlen Hoff ->.
    pose proof (device_read_locked_ret writable d len offset Hd Hlen Hoff).
    pose proof (device_write_locked_ret source d len offset Hd Hlen Hoff).
    unfold ERESTARTSYS, EFAULT, ENOSPC in *. lia.
Qed.

Lemma interrupted_call_is_retryable_scenario :
  rw_ret (device_read (- EINTR) 64 scenario_dev 20 0) = - ERESTARTSYS
  /\ rw_dev (device_write (- EINTR) digits scenario_dev 10 10) = scenario_dev
  /\ rw_ret (device_read 0 64 scenario_dev 20 0) <> - ERESTARTSYS
  /\ rw_ret (device_write 0 digits scenario_dev 10 10) <> - ERESTARTSYS.
Proof.
  destruct interrupted_call_is_retryable as [Hint Hrun].
  assert (Hl : - EINTR <> 0) by (unfold EINTR; lia).
  destruct (Hint (- EINTR) 64 digits scenario_dev 20 0 Hl)
    as ((Hret & _) & _).
  destruct (Hint (- EINTR) 64 digits scenario_dev 10 10 Hl)
    as (_ & (_ & Hdev & _)).
  assert (Hok : dev_ok scenario_dev) by (apply dev_okb_sound; reflexivity).
  assert (Hlen20 : is_ulong 20) by int_bounds.
  assert (Hlen10 : is_ulong 10) by int_bounds.
  assert (Hoff0 : is_llong 0) by int_bounds.
  assert (Hoff10 : is_llong 10) by int_bounds.
  destruct (Hrun 0 64 digits scenario_dev 20 0 Hok Hlen20 Hoff0 eq_refl)
    as [Hr _].
  destruct (Hrun 0 64 digits scenario_dev 10 10 Hok Hlen10 Hoff10 eq_refl)
    as [_ Hw].
  exact (conj Hret (conj Hdev (conj Hr Hw))).
Defined.

(** ** Parameter validation *)

(** C9: [simplechar_init] returns [-EINVAL] without having called into
    the kernel and without a device exactly when the capacity parameter
    is below 1 or above 4096.  With a capacity in range, a verbosity
    outside [0, 3] is replaced by 1 and initialisation then runs exactly
    as it does for verbosity 1; when every kernel call succeeds it
    returns 0 and leaves the freshly constructed device. *)
Theorem simplechar_init_validation (env : init_env) (bs dl major : Z) :
  ((init_ret (simplechar_init env bs dl) = - EINVAL
    /\ simple_dev (simplechar_init env bs dl) = None
    /\ init_calls (simplechar_init env bs dl) = [])
   <-> (bs < 1 \/ bs > BUFFER_SIZE_MAX))
  /\ (1 <= bs <= BUFFER_SIZE_MAX -> dl < 0 \/ dl > 3 ->
      debug_level (simplechar_init env bs dl) = 1
      /\ simplechar_init env bs dl = simplechar_init env bs 1
      /\ init_ret (simplechar_init (env_ok major) bs dl) = 0
      /\ simple_dev (simplechar_init (env_ok major) bs dl)
         = Some (fresh_dev bs)
      /\ debug_level (simplechar_init (env_ok major) bs dl) = 1).
Proof.
  assert (Hdl : dl < 0 \/ dl > 3 ->
                (if (dl <? 0) || (dl >? 3) then 1 else dl) = 1).
  { intros H. rewrite Z.gtb_ltb.
    destruct (Z.ltb_spec dl 0), (Z.ltb_spec 3 dl); cbn; lia. }
  unfold simplechar_init. rewrite Z.gtb_ltb.
  destruct (Z.leb_spec bs 0) as [Hle | Hgt]; cbn [orb].
  { split; [| lia]. split; [lia | auto]. }
  destruct (Z.ltb_spec BUFFER_SIZE_MAX bs) as [Hbig | Hfit].
  { split; [| lia]. split; [lia | auto]. }
  split.
  - split; [| lia]. intros (_ & _ & Hcalls). exfalso.
    destruct (kzalloc_dev_ok env); cbn [negb] in Hcalls; [| discriminate].
    destruct (kzalloc_buffer_ok env); cbn [negb] in Hcalls; [| discriminate].
    destruct (alloc_chrdev_region_ret env <? 0); [discriminate |].
    destruct (cdev_add_ret env <? 0); [discriminate |].
    destruct (class_create_ret env); [| discriminate].
    destruct (device_create_ret env); discriminate.
  - intros _ Hout. rewrite (Hdl Hout). cbn [orb Z.ltb Z.gtb Z.compare].
    split; [| split; [reflexivity | cbn; auto]].
    destruct (kzalloc_dev_ok env); cbn [negb]; [| reflexivity].
    destruct (kzalloc_buffer_ok env); cbn [negb]; [| reflexivity].
    destruct (alloc_chrdev_region_ret env <? 0); [reflexivity |].
    destruct (cdev_add_ret env <? 0); [reflexivity |].
    destruct (class_create_ret env); [| reflexivity].
    destruct (device_create_ret env); reflexivity.
Qed.

Lemma simplechar_init_validation_scenario :
  init_ret (simplechar_init (env_ok 240) 0 9) = - EINVAL
  /\ init_calls (simplechar_init (env_ok 240) 0 9) = []
  /\ debug_level (simplechar_init (env_ok 240) 16 9) = 1
  /\ simple_dev (simplechar_init (env_ok 240) 16 9) = Some (fresh_dev 16).
Proof.
  destruct (simplechar_init_validation (env_ok 240) 0 9 240) as [[_ Hbad] _].
  destruct (Hbad ltac:(lia)) as (Hret & _ & Hcalls).
  destruct (simplechar_init_validation (env_ok 240) 16 9 240) as [_ Hgood].
  destruct (Hgood ltac:(unfold BUFFER_SIZE_MAX; lia) ltac:(lia))
    as (_ & _ & _ & Hdev & Hdl).
  exact (conj Hret (conj Hcalls (conj Hdl Hdev))).
Defined.

(** ** Frame of a read *)

(** C10: on every path of [device_read] (interrupted, end of data, copy
    fault, success) the storage, the data length, the capacity, the
    write counter and the open count are unchanged; the device is either
    untouched or differs in [read_count] only. *)
Theorem device_read_frame (lock writable : Z) (d : simplechar_dev)
        (len offset : Z) :
  buffer (rw_dev (device_read lock writable d len offset)) = buffer d
  /\ buffer_len (rw_dev (device_read lock writable d len offset))
     = buffer_len d
  /\ buffer_size (rw_dev (device_read lock writable d len offset))
     = buffer_size d
  /\ write_count (rw_dev (device_read lock writable d len offset))
     = write_count d
  /\ open_count (rw_dev (device_read lock writable d len offset))
     = open_count d.
Proof.
  destruct (device_read_dev lock writable d len offset) as [E | E];
    rewrite E; cbn; repeat split; reflexivity.
Qed.

(** * Further properties of the driver *)

(** ** Auxiliary facts *)

Lemma to_int_add_idemp (x y : Z) : to_int (to_int x + y) = to_int (x + y).
Proof.
  unfold to_int, wrap_signed.
  replace ((x + 2 ^ (32 - 1)) mod 2 ^ 32 - 2 ^ (32 - 1) + y + 2 ^ (32 - 1))
    with ((x + 2 ^ (32 - 1)) mod 2 ^ 32 + y) by lia.
  rewrite Zplus_mod_idemp_l. f_equal. f_equal. lia.
Qed.

Lemma firstn_plus (a c : nat) (l : list byte) :
  firstn (a + c) l = firstn a l ++ firstn c (skipn a l).
Proof.
  revert l. induction a as [| a IH]; intros l; [reflexivity |].
  destruct l as [| x l]; cbn [Nat.add firstn skipn app].
  - now rewrite firstn_nil.
  - now rewrite IH.
Qed.

(** Bytes away from the stored region are not touched by [store]. *)
Lemma store_nth_outside (base : list byte) (off : Z) (data : list byte)
      (i : nat) :
  0 <= off -> off + Z.of_nat (length data) <= Z.of_nat (length base) ->
  Z.of_nat i < off \/ off + Z.of_nat (length data) <= Z.of_nat i ->
  nth_error (store base off data) i = nth_error base i.
Proof.
  intros H0 H1 Hi. unfold store.
  assert (Hk : length (firstn (Z.to_nat off) base) = Z.to_nat off)
    by (rewrite length_firstn; lia).
  destruct Hi as [Hlt | Hge].
  - rewrite nth_error_app1 by lia.
    rewrite nth_error_firstn.
    destruct (Nat.ltb_spec i (Z.to_nat off)); [reflexivity | lia].
  - rewrite nth_error_app2 by lia. rewrite Hk.
    rewrite nth_error_app2 by lia.
    rewrite nth_error_skipn. f_equal. lia.
Qed.

(** A slice that ends before the stored region is not touched. *)
Lemma store_slice_before (base : list byte) (off : Z) (data : list byte)
      (from count : nat) :
  Z.of_nat from + Z.of_nat count <= off <= Z.of_nat (length base) ->
  firstn count (skipn from (store base off data))
  = firstn count (skipn from base).
Proof.
  intros H. unfold store.
  assert (Hk : length (firstn (Z.to_nat off) base) = Z.to_nat off)
    by (rewrite length_firstn; lia).
  rewrite skipn_app, Hk.
  replace (from - Z.to_nat off)%nat with 0%nat by lia. cbn [skipn].
  rewrite firstn_app.
  rewrite skipn_firstn_comm, length_firstn, length_skipn.
  replace (count - Nat.min (Z.to_nat off - from) (length base - from))%nat
    with 0%nat by lia.
  cbn [firstn]. rewrite app_nil_r, firstn_firstn.
  f_equal. lia.
Qed.

(** Storing twice at the same place keeps the second. *)
Lemma store_store (base : list byte) (off : Z) (d1 d2 : list byte) :
  0 <= off -> off + Z.of_nat (length d1) <= Z.of_nat (length base) ->
  length d1 = length d2 ->
  store (store base off d1) off d2 = store base off d2.
Proof.
  intros H0 H1 Hlen. unfold store.
  assert (Hk : length (firstn (Z.to_nat off) base) = Z.to_nat off)
    by (rewrite length_firstn; lia).
  rewrite firstn_app, Hk, Nat.sub_diag. cbn [firstn].
  rewrite app_nil_r, firstn_firstn, Nat.min_id.
  f_equal. f_equal.
  rewrite skipn_app, Hk.
  rewrite (skipn_all2 (firstn (Z.to_nat off) base)) by lia. cbn [app].
  replace (Z.to_nat off + length d2 - Z.to_nat off)%nat
    with (length d1) by lia.
  rewrite skipn_app, skipn_all, Nat.sub_diag. cbn [skipn app].
  now rewrite Hlen.
Qed.

(** A write whose source holds enough bytes. *)
Lemma device_write_ok (source : list byte) (d : simplechar_dev)
      (len offset : Z) :
  dev_ok d -> is_ulong len -> 0 <= offset < buffer_size d ->
  Z.min len (buffer_size d - offset) <= Z.of_nat (length source) ->
  device_write 0 source d len offset =
    mk_rw (Z.min len (buffer_size d - offset))
          (set_write_count (to_ulong (write_count d + 1))
             (set_buffer_len
                (Z.max (buffer_len d)
                       (offset + Z.min len (buffer_size d - offset)))
                (set_buffer
                   (store (buffer d) offset
                      (firstn (Z.to_nat (Z.min len (buffer_size d - offset)))
                              source)) d)))
          (offset + Z.min len (buffer_size d - offset)) [].
Proof.
  intros [Hs Hb Ha Ho Hr Hw] Hlen Hoff Hsrc.
  rewrite device_write_locked by (auto; lia). cbv zeta.
  set (n := Z.min len (buffer_size d - offset)) in *.
  assert (Hn : 0 <= n) by (unfold is_ulong in Hlen; lia).
  assert (Hcopy : fst (copy_from_user source n) = 0).
  { unfold copy_from_user, transferred. cbn [fst]. lia. }
  destruct (copy_from_user_complete source n Hn Hcopy) as [Hdata _].
  destruct (copy_from_user source n) as [uncopied data].
  cbn [fst snd] in Hcopy, Hdata. subst uncopied data. reflexivity.
Qed.

(** A read whose destination has enough room. *)
Lemma device_read_ok (writable : Z) (d : simplechar_dev) (len offset : Z) :
  dev_ok d -> is_ulong len -> 0 <= offset < buffer_len d ->
  Z.min len (buffer_len d - offset) <= writable ->
  device_read 0 writable d len offset =
    mk_rw (Z.min len (buffer_len d - offset))
          (set_read_count (to_ulong (read_count d + 1)) d)
          (offset + Z.min len (buffer_len d - offset))
          (firstn (Z.to_nat (Z.min len (buffer_len d - offset)))
                  (skipn (Z.to_nat offset) (buffer d))).
Proof.
  intros [Hs Hb Ha Ho Hr Hw] Hlen Hoff Hroom.
  rewrite device_read_locked by (auto; lia). cbv zeta.
  unfold copy_to_user, at_offset, is_ulong in *.
  assert (Ht : transferred writable (Z.min len (buffer_len d - offset))
               = Z.min len (buffer_len d - offset))
    by (unfold transferred; lia).
  rewrite Ht, Z.sub_diag. reflexivity.
Qed.

(** A write touches neither the open count, the read counter nor the
    capacity. *)
Lemma device_write_frame (lock : Z) (source : list byte)
      (d : simplechar_dev) (len offset : Z) :
  open_count (rw_dev (device_write lock source d len offset)) = open_count d
  /\ read_count (rw_dev (device_write lock source d len offset))
     = read_count d
  /\ buffer_size (rw_dev (device_write lock source d len offset))
     = buffer_size d.
Proof.
  unfold device_write.
  destruct (negb (lock =? 0)); [auto |].
  destruct (to_ulong offset >=? buffer_size d); [auto |].
  destruct (copy_from_user _ _) as [uncopied data].
  destruct (negb (to_int uncopied =? 0)); [auto |].
  cbn [rw_dev]. 
  destruct (_ >? _); cbn; auto.
Qed.

(** ** Open and release *)

Lemma run_op_open_count (op : operation) (d : simplechar_dev) :
  open_count (run_op op d)
  = to_int (open_count d
            + (if is_open op then 1 else 0)
            - (if is_release op then 1 else 0))
  \/ (is_open op = false /\ is_release op = false
      /\ open_count (run_op op d) = open_count d).
Proof.
  destruct op; cbn [run_op is_open is_release].
  - left. cbn. f_equal. lia.
  - left. cbn. f_equal. lia.
  - right. repeat split.
    destruct (device_read_dev lock writable d len offset) as [-> | ->];
      reflexivity.
  - right. repeat split. apply device_write_frame.
  - right. repeat split.
  - right. repeat split.
Qed.

(** X1: whatever the order of the calls, and whatever reads, writes,
    ioctls and status reports run in between, the open count after a
    sequence of calls is the starting count plus the number of opens
    minus the number of releases, as a 32-bit signed number; it is
    exactly that difference whenever the difference fits an [int]
    (below zero when releases outnumber opens: nothing stops it). *)
Theorem open_count_balance (ops : list operation) (d : simplechar_dev) :
  is_int (open_count d) ->
  open_count (run_ops ops d)
  = to_int (open_count d + count_ops is_open ops
            - count_ops is_release ops)
  /\ (is_int (open_count d + count_ops is_open ops
              - count_ops is_release ops) ->
      open_count (run_ops ops d)
      = open_count d + count_ops is_open ops - count_ops is_release ops).
Proof.
  intros Hd.
  assert (Hmain : open_count (run_ops ops d)
                  = to_int (open_count d + count_ops is_open ops
                            - count_ops is_release ops)).
  { revert d Hd. induction ops as [| op ops IH]; intros d Hd.
    - cbn. rewrite Z.add_0_r, Z.sub_0_r. symmetry.
      now apply to_int_small.
    - rewrite run_ops_cons.
      assert (Hstep : is_int (open_count (run_op op d))).
      { destruct (run_op_open_count op d) as [-> | (_ & _ & ->)];
          [apply to_int_range | exact Hd]. }
      rewrite (IH _ Hstep). unfold count_ops. cbn [filter].
      destruct (run_op_open_count op d) as [-> | (Ho & Hr & ->)].
      + replace (to_int (open_count d + (if is_open op then 1 else 0)
                         - (if is_release op then 1 else 0))
                 + Z.of_nat (length (filter is_open ops))
                 - Z.of_nat (length (filter is_release ops)))
          with (to_int (open_count d + (if is_open op then 1 else 0)
                        - (if is_release op then 1 else 0))
                + (Z.of_nat (length (filter is_open ops))
                   - Z.of_nat (length (filter is_release ops)))) by lia.
        rewrite to_int_add_idemp. f_equal.
        destruct (is_open op), (is_release op); cbn [length]; lia.
      + rewrite Ho, Hr. reflexivity. }
  split; [exact Hmain |].
  intros Hfit. rewrite Hmain. now apply to_int_small.
Qed.

Lemma open_count_balance_scenario :
  is_int (open_count (fresh_dev 16))
  /\ open_count
       (run_ops [Op_open; Op_read 0 64 8 0; Op_open; Op_release;
                 Op_write 0 digits 10 0; Op_ioctl 7 0]
                (fresh_dev 16)) = 1
  /\ open_count (run_ops [Op_release] (fresh_dev 16)) = -1.
Proof.
  assert (Hi : is_int (open_count (fresh_dev 16))) by (cbn; int_bounds).
  destruct (open_count_balance
              [Op_open; Op_read 0 64 8 0; Op_open; Op_release;
               Op_write 0 digits 10 0; Op_ioctl 7 0]
              (fresh_dev 16) Hi) as [_ H1].
  destruct (open_count_balance [Op_release] (fresh_dev 16) Hi) as [_ H2].
  split; [exact Hi |].
  split; [apply H1 | apply H2]; cbn; int_bounds.
Defined.

(** X2: an open followed by a release, and a release followed by an
    open, give back the very same device, also across the wrap-around of
    the 32-bit count; both calls return 0. *)
Theorem open_release_identity (d : simplechar_dev) :
  is_int (open_count d) ->
  snd (device_release (snd (device_open d))) = d
  /\ snd (device_open (snd (device_release d))) = d
  /\ fst (device_open d) = 0
  /\ fst (device_release d) = 0.
Proof.
  intros Hd. unfold device_open, device_release, set_open_count.
  cbn [fst snd buffer buffer_len buffer_size open_count read_count
       write_count].
  replace (to_int (open_count d + 1) - 1)
    with (to_int (open_count d + 1) + (-1)) by lia.
  replace (to_int (open_count d - 1) + 1)
    with (to_int (open_count d + (-1)) + 1) by (f_equal; f_equal; lia).
  rewrite !to_int_add_idemp.
  replace (open_count d + 1 + -1) with (open_count d) by lia.
  replace (open_count d + -1 + 1) with (open_count d) by lia.
  rewrite to_int_small by exact Hd.
  destruct d; auto.
Qed.

Lemma open_release_identity_at_int_max :
  is_int INT_MAX
  /\ open_count (snd (device_open (set_open_count INT_MAX scenario_dev)))
     = INT_MIN
  /\ snd (device_release
            (snd (device_open (set_open_count INT_MAX scenario_dev))))
     = set_open_count INT_MAX scenario_dev.
Proof.
  assert (Hi : is_int (open_count (set_open_count INT_MAX scenario_dev)))
    by (cbn; int_bounds).
  destruct (open_release_identity _ Hi) as (Hrt & _).
  split; [exact Hi |]. split; [reflexivity | exact Hrt].
Defined.

(** ** Calls that are not writes *)

Lemma run_op_keeps_storage (op : operation) (d : simplechar_dev) :
  is_write op = false ->
  buffer (run_op op d) = buffer d
  /\ buffer_len (run_op op d) = buffer_len d
  /\ buffer_size (run_op op d) = buffer_size d
  /\ write_count (run_op op d) = write_count d.
Proof.
  intros Hw. destruct op; try discriminate; cbn [run_op]; auto.
  destruct (device_read_dev lock writable d len offset) as [-> | ->];
    auto.
Qed.

(** X3: only writes change what the device holds: after any sequence of
    opens, releases, reads, ioctls and status reports the storage, the
    data length, the capacity and the write counter are what they
    were. *)
Theorem only_writes_change_storage (ops : list operation)
        (d : simplechar_dev) :
  forallb (fun op => negb (is_write op)) ops = true ->
  buffer (run_ops ops d) = buffer d
  /\ buffer_len (run_ops ops d) = buffer_len d
  /\ buffer_size (run_ops ops d) = buffer_size d
  /\ write_count (run_ops ops d) = write_count d.
Proof.
  revert d. induction ops as [| op ops IH]; intros d Hw; [cbn; auto |].
  cbn [forallb] in Hw. apply andb_prop in Hw as [Hop Hrest].
  apply negb_true_iff in Hop.
  rewrite run_ops_cons.
  destruct (IH (run_op op d) Hrest) as (-> & -> & -> & ->).
  now apply run_op_keeps_storage.
Qed.

Lemma only_writes_change_storage_scenario :
  buffer (run_ops [Op_open; Op_read 0 64 20 0; Op_read 0 2 20 3;
                   Op_proc_show 240 1; Op_release] scenario_dev)
  = buffer scenario_dev
  /\ buffer_len (run_ops [Op_open; Op_read 0 64 20 0; Op_read 0 2 20 3;
                          Op_proc_show 240 1; Op_release] scenario_dev) = 10.
Proof.
  destruct (only_writes_change_storage
              [Op_open; Op_read 0 64 20 0; Op_read 0 2 20 3;
               Op_proc_show 240 1; Op_release] scenario_dev eq_refl)
    as (Hb & Hl & _).
  exact (conj Hb Hl).
Defined.

(** ** Where a write lands *)

(** X4: a write, on whichever path it leaves (interrupted, beyond the
    buffer, copy fault, success), changes no byte of the storage outside
    [offset, offset + min(len, capacity - offset)) and never changes the
    size of the allocation. *)
Theorem device_write_locality (lock : Z) (source : list byte)
        (d : simplechar_dev) (len offset : Z) (i : nat) :
  dev_ok d -> is_ulong len -> is_llong offset ->
  Z.of_nat i < offset
  \/ offset + Z.min len (buffer_size d - offset) <= Z.of_nat i ->
  nth_error (buffer (rw_dev (device_write lock source d len offset))) i
  = nth_error (buffer d) i
  /\ length (buffer (rw_dev (device_write lock source d len offset)))
     = length (buffer d).
Proof.
  intros Hd Hlen Hoff Hi. pose proof Hd as [Hs Hb Ha Ho Hr Hw].
  destruct (Z.eq_dec lock 0) as [-> | Hl];
    [| rewrite device_write_interrupted by exact Hl; auto].
  destruct (Z_lt_le_dec offset 0) as [Hneg | Hpos];
    [rewrite device_write_beyond by (auto; lia); auto |].
  destruct (Z_lt_le_dec offset (buffer_size d)) as [Hin | Hout];
    [| rewrite device_write_beyond by (auto; lia); auto].
  rewrite device_write_locked by (auto; lia). cbv zeta.
  set (n := Z.min len (buffer_size d - offset)) in *.
  assert (Hn : 0 <= n <= buffer_size d - offset)
    by (unfold is_ulong in Hlen; lia).
  pose proof (copy_from_user_length source n (proj1 Hn)) as Hdata.
  destruct (copy_from_user source n) as [uncopied data]. cbn [snd] in Hdata.
  assert (Hnth : nth_error (store (buffer d) offset data) i
                 = nth_error (buffer d) i)
    by (apply store_nth_outside; lia).
  assert (Hlength : length (store (buffer d) offset data)
                    = length (buffer d))
    by (apply store_length; lia).
  destruct (uncopied =? 0); cbn; auto.
Qed.

Lemma device_write_locality_scenario :
  dev_ok scenario_dev
  /\ nth_error (buffer (rw_dev (device_write 0 [x41; x42] scenario_dev 2 4)))
               3 = Some x33
  /\ nth_error (buffer (rw_dev (device_write 0 [x41; x42] scenario_dev 2 4)))
               6 = Some x36.
Proof.
  assert (Hok : dev_ok scenario_dev) by (apply dev_okb_sound; reflexivity).
  assert (Hlen : is_ulong 2) by int_bounds.
  assert (Hoff : is_llong 4) by int_bounds.
  destruct (device_write_locality 0 [x41; x42] scenario_dev 2 4 3
              Hok Hlen Hoff ltac:(left; cbn; lia)) as [H3 _].
  destruct (device_write_locality 0 [x41; x42] scenario_dev 2 4 6
              Hok Hlen Hoff ltac:(right; cbn; lia)) as [H6 _].
  exact (conj Hok (conj H3 H6)).
Defined.

(** X5: round trip at any place: writing [B] at an offset inside the
    buffer with [offset + length B <= capacity] and then reading
    [length B] bytes from the same offset returns exactly [B], whatever
    the data length was before. *)
Theorem write_read_roundtrip_at (B rest : list byte) (d : simplechar_dev)
        (writable offset : Z) :
  dev_ok d ->
  0 <= offset < buffer_size d ->
  offset + Z.of_nat (length B) <= buffer_size d ->
  Z.of_nat (length B) <= writable ->
  rw_ret (device_write 0 (B ++ rest) d (Z.of_nat (length B)) offset)
  = Z.of_nat (length B)
  /\ rw_ret (device_read 0 writable
               (rw_dev (device_write 0 (B ++ rest) d
                          (Z.of_nat (length B)) offset))
               (Z.of_nat (length B)) offset)
     = Z.of_nat (length B)
  /\ rw_user (device_read 0 writable
                (rw_dev (device_write 0 (B ++ rest) d
                           (Z.of_nat (length B)) offset))
                (Z.of_nat (length B)) offset)
     = B.
Proof.
  intros Hd Hoff Hfit Hroom.
  assert (Hlen : is_ulong (Z.of_nat (length B)))
    by (destruct Hd; int_bounds).
  assert (Hoff' : is_llong offset) by (destruct Hd; int_bounds).
  pose proof (device_write_dev_ok 0 (B ++ rest) d (Z.of_nat (length B))
                offset Hd Hlen Hoff') as Hd'.
  pose proof Hd as [Hs Hb Ha Ho Hr Hw].
  revert Hd'.
  rewrite device_write_ok by (auto; rewrite ?length_app; lia).
  rewrite Z.min_l by lia. rewrite Nat2Z.id.
  rewrite firstn_app, Nat.sub_diag, firstn_all. cbn [firstn].
  rewrite app_nil_r.
  set (d' := set_write_count _ _). cbn [rw_ret rw_dev]. intros Hd'.
  split; [reflexivity |].
  assert (Hbl : buffer_len d'
                = Z.max (buffer_len d) (offset + Z.of_nat (length B)))
    by reflexivity.
  destruct (Z_lt_le_dec offset (buffer_len d')) as [Hin | Heof].
  - rewrite device_read_ok by (auto; lia).
    rewrite Z.min_l by lia. rewrite Nat2Z.id. cbn [rw_ret rw_user].
    split; [reflexivity |].
    subst d'. cbn [buffer set_write_count set_buffer_len set_buffer].
    apply (store_at_offset (buffer d) offset B). lia.
  - assert (HB : B = []) by (destruct B; [reflexivity | cbn in *; lia]).
    rewrite device_read_eof; destruct Hd'; auto; try lia.
    subst B. split; reflexivity.
Qed.

Lemma write_read_roundtrip_at_scenario :
  dev_ok (fresh_dev 16)
  /\ rw_user (device_read 0 3
                (rw_dev (device_write 0 ([x41; x42; x43] ++ [])
                           (fresh_dev 16) 3 13)) 3 13)
     = [x41; x42; x43].
Proof.
  assert (Hok : dev_ok (fresh_dev 16)) by (apply dev_okb_sound; reflexivity).
  destruct (write_read_roundtrip_at [x41; x42; x43] [] (fresh_dev 16) 3 13
              Hok ltac:(cbn; lia) ltac:(cbn; lia) ltac:(cbn; lia))
    as (_ & _ & Huser).
  exact (conj Hok Huser).
Defined.

(** X6: a successful write that starts beyond the data end makes the
    gap readable: the bytes between the old data length and the write
    offset, which no read could reach before, are then returned by a read
    as the storage holds them (zeros after [kzalloc], or whatever an
    earlier failed write left there). *)
Theorem write_beyond_data_exposes_gap (source : list byte)
        (d : simplechar_dev) (len offset writable : Z) :
  dev_ok d -> is_ulong len ->
  buffer_len d < offset < buffer_size d ->
  Z.min len (buffer_size d - offset) <= Z.of_nat (length source) ->
  offset - buffer_len d <= writable ->
  rw_ret (device_read 0 writable d (offset - buffer_len d) (buffer_len d))
  = 0
  /\ rw_ret (device_read 0 writable
               (rw_dev (device_write 0 source d len offset))
               (offset - buffer_len d) (buffer_len d))
     = offset - buffer_len d
  /\ rw_user (device_read 0 writable
                (rw_dev (device_write 0 source d len offset))
                (offset - buffer_len d) (buffer_len d))
     = firstn (Z.to_nat (offset - buffer_len d))
              (skipn (Z.to_nat (buffer_len d)) (buffer d)).
Proof.
  intros Hd Hlen Hgap Hsrc Hroom.
  assert (Hoff' : is_llong offset) by (destruct Hd; int_bounds).
  pose proof (device_write_dev_ok 0 source d len offset Hd Hlen Hoff')
    as Hd'.
  pose proof Hd as [Hs Hb Ha Ho Hr Hw].
  split.
  { rewrite device_read_eof; auto; try lia. int_bounds. }
  revert Hd'.
  rewrite device_write_ok by (auto; lia).
  set (n := Z.min len (buffer_size d - offset)) in *.
  assert (Hn : 0 <= n) by (unfold is_ulong in Hlen; lia).
  set (d' := set_write_count _ _). cbn [rw_dev]. intros Hd'.
  assert (Hbl : buffer_len d' = Z.max (buffer_len d) (offset + n))
    by reflexivity.
  assert (Hgl : is_ulong (offset - buffer_len d)) by int_bounds.
  rewrite device_read_ok by (auto; lia).
  rewrite Hbl, Z.min_l by lia. cbn [rw_ret rw_user].
  split; [reflexivity |].
  subst d'. cbn [buffer set_write_count set_buffer_len set_buffer].
  apply store_slice_before. lia.
Qed.

Lemma write_beyond_data_exposes_gap_scenario :
  dev_ok (fresh_dev 16)
  /\ rw_user (device_read 0 64
                (rw_dev (device_write 0 [x41] (fresh_dev 16) 1 5)) 5 0)
     = [x00; x00; x00; x00; x00].
Proof.
  assert (Hok : dev_ok (fresh_dev 16)) by (apply dev_okb_sound; reflexivity).
  assert (Hlen : is_ulong 1) by int_bounds.
  destruct (write_beyond_data_exposes_gap [x41] (fresh_dev 16) 1 5 64
              Hok Hlen ltac:(cbn; lia) ltac:(cbn; lia) ltac:(cbn; lia))
    as (_ & _ & Huser).
  exact (conj Hok Huser).
Defined.

(** X7: the last write wins: after two successful writes of the same
    length at the same offset the storage and the data length are what
    the second write alone would have produced. *)
Theorem last_write_wins (B1 B2 : list byte) (d : simplechar_dev)
        (len offset : Z) :
  dev_ok d -> is_ulong len -> 0 <= offset < buffer_size d ->
  Z.min len (buffer_size d - offset) <= Z.of_nat (length B1) ->
  Z.min len (buffer_size d - offset) <= Z.of_nat (length B2) ->
  buffer (rw_dev (device_write 0 B2
                    (rw_dev (device_write 0 B1 d len offset)) len offset))
  = buffer (rw_dev (device_write 0 B2 d len offset))
  /\ buffer_len (rw_dev (device_write 0 B2
                           (rw_dev (device_write 0 B1 d len offset))
                           len offset))
     = buffer_len (rw_dev (device_write 0 B2 d len offset)).
Proof.
  intros Hd Hlen Hoff H1 H2.
  assert (Hoff' : is_llong offset) by (destruct Hd; int_bounds).
  pose proof (device_write_dev_ok 0 B1 d len offset Hd Hlen Hoff') as Hd1.
  pose proof Hd as [Hs Hb Ha Ho Hr Hw].
  revert Hd1.
  rewrite (device_write_ok B1) by (auto; lia).
  rewrite (device_write_ok B2 d) by (auto; lia).
  set (n := Z.min len (buffer_size d - offset)) in *.
  assert (Hn : 0 <= n <= buffer_size d - offset)
    by (unfold is_ulong in Hlen; lia).
  set (d1 := set_write_count _ (set_buffer_len _ (set_buffer
               (store (buffer d) offset (firstn (Z.to_nat n) B1)) d))).
  cbn [rw_dev]. intros Hd1.
  assert (Hsz : buffer_size d1 = buffer_size d) by reflexivity.
  rewrite (device_write_ok B2 d1) by (auto; rewrite ?Hsz; lia).
  rewrite Hsz. fold n.
  cbn [rw_dev buffer buffer_len set_write_count set_buffer_len set_buffer].
  split; [| subst d1; cbn; lia].
  subst d1. cbn [buffer set_write_count set_buffer_len set_buffer].
  apply store_store; rewrite ?length_firstn; lia.
Qed.

Lemma last_write_wins_scenario :
  dev_ok scenario_dev
  /\ buffer (rw_dev (device_write 0 [x43; x44]
                       (rw_dev (device_write 0 [x41; x42] scenario_dev 2 3))
                       2 3))
     = [x30; x31; x32; x43; x44; x35; x36; x37; x38; x39;
        x00; x00; x00; x00; x00; x00].
Proof.
  assert (Hok : dev_ok scenario_dev) by (apply dev_okb_sound; reflexivity).
  assert (Hlen : is_ulong 2) by int_bounds.
  destruct (last_write_wins [x41; x42] [x43; x44] scenario_dev 2 3
              Hok Hlen ltac:(cbn; lia) ltac:(cbn; lia) ltac:(cbn; lia))
    as [Hbuf _].
  exact (conj Hok Hbuf).
Defined.

(** ** Reading in pieces *)

(** X8: reading in two pieces gives what one read gives: a read of
    [l1] bytes followed by a read of [l2] bytes at the position the
    first one left delivers, together, exactly the bytes, the byte count
    and the final position of a single read of [l1 + l2] bytes
    (destinations with room for what is asked). *)
Theorem reads_compose (d : simplechar_dev) (l1 l2 offset w1 w2 w : Z) :
  dev_ok d -> is_ulong l1 -> is_ulong l2 -> is_ulong (l1 + l2) ->
  is_llong offset ->
  l1 <= w1 -> l2 <= w2 -> l1 + l2 <= w ->
  rw_user (device_read 0 w1 d l1 offset)
  ++ rw_user (device_read 0 w2 (rw_dev (device_read 0 w1 d l1 offset)) l2
                (rw_offset (device_read 0 w1 d l1 offset)))
  = rw_user (device_read 0 w d (l1 + l2) offset)
  /\ rw_ret (device_read 0 w1 d l1 offset)
     + rw_ret (device_read 0 w2 (rw_dev (device_read 0 w1 d l1 offset)) l2
                 (rw_offset (device_read 0 w1 d l1 offset)))
     = rw_ret (device_read 0 w d (l1 + l2) offset)
  /\ rw_offset (device_read 0 w2 (rw_dev (device_read 0 w1 d l1 offset)) l2
                  (rw_offset (device_read 0 w1 d l1 offset)))
     = rw_offset (device_read 0 w d (l1 + l2) offset).
Proof.
  intros Hd H1 H2 H12 Hoff Hw1 Hw2 Hw.
  pose proof (device_read_dev_ok 0 w1 d l1 offset Hd) as Hd1.
  pose proof Hd as [Hs Hb Ha Ho Hr Hwc].
  destruct (Z_lt_le_dec offset 0) as [Hneg | Hpos].
  { rewrite !(device_read_eof _ d) by (auto; lia). cbn [rw_user rw_dev
      rw_offset rw_ret]. rewrite ?(device_read_eof _ d) by (auto; lia).
    auto. }
  destruct (Z_lt_le_dec offset (buffer_len d)) as [Hin | Heof].
  2:{ rewrite !(device_read_eof _ d) by (auto; lia). cbn [rw_user rw_dev
        rw_offset rw_ret]. rewrite ?(device_read_eof _ d) by (auto; lia).
      auto. }
  revert Hd1.
  rewrite (device_read_ok w1 d l1) by (auto; lia).
  rewrite (device_read_ok w d (l1 + l2)) by (auto; lia).
  set (d1 := set_read_count _ d).
  cbn [rw_user rw_dev rw_offset rw_ret]. intros Hd1.
  assert (Hl1 : buffer_len d1 = buffer_len d) by reflexivity.
  assert (Hb1 : buffer d1 = buffer d) by reflexivity.
  unfold is_ulong in H1, H2, H12.
  destruct (Z_lt_le_dec (offset + Z.min l1 (buffer_len d - offset))
                        (buffer_len d)) as [Hmore | Hend].
  - rewrite (device_read_ok w2 d1 l2) by (auto; rewrite ?Hl1; lia).
    rewrite Hl1, Hb1. cbn [rw_user rw_offset rw_ret].
    rewrite Z.min_l by lia.
    replace (Z.min (l1 + l2) (buffer_len d - offset))
      with (l1 + Z.min l2 (buffer_len d - (offset + l1))) by lia.
    repeat split; try lia.
    rewrite (Z2Nat.inj_add l1 (Z.min l2 (buffer_len d - (offset + l1))))
      by lia.
    rewrite firstn_plus, skipn_skipn.
    replace (Z.to_nat l1 + Z.to_nat offset)%nat
      with (Z.to_nat (offset + l1)) by lia.
    reflexivity.
  - rewrite (device_read_eof w2 d1)
      by (destruct Hd1; auto; rewrite ?Hl1; int_bounds).
    cbn [rw_user rw_offset rw_ret]. rewrite app_nil_r.
    replace (Z.min (l1 + l2) (buffer_len d - offset))
      with (Z.min l1 (buffer_len d - offset)) by lia.
    repeat split; lia.
Qed.

Lemma reads_compose_scenario :
  dev_ok scenario_dev
  /\ rw_user (device_read 0 4 scenario_dev 4 0)
     ++ rw_user (device_read 0 20
                   (rw_dev (device_read 0 4 scenario_dev 4 0)) 20
                   (rw_offset (device_read 0 4 scenario_dev 4 0)))
     = digits.
Proof.
  assert (Hok : dev_ok scenario_dev) by (apply dev_okb_sound; reflexivity).
  destruct (reads_compose scenario_dev 4 20 0 4 20 24 Hok
              ltac:(int_bounds) ltac:(int_bounds) ltac:(int_bounds)
              ltac:(int_bounds) ltac:(lia) ltac:(lia) ltac:(lia))
    as (Huser & _).
  exact (conj Hok Huser).
Defined.

(** ** Edge cases of the file position and of the length *)

(** X9: a negative file position is compared as an unsigned number, so
    it counts as past the end: a read there returns 0 (end of data) and a
    write there returns [-ENOSPC], both without touching the device or
    the position. *)
Theorem negative_offset_is_past_the_end (writable : Z) (source : list byte)
        (d : simplechar_dev) (len offset : Z) :
  dev_ok d -> LLONG_MIN <= offset < 0 ->
  device_read 0 writable d len offset = mk_rw 0 d offset []
  /\ device_write 0 source d len offset = mk_rw (- ENOSPC) d offset [].
Proof.
  intros [Hs Hb _ _ _ _] Hoff.
  assert (Ht : is_llong offset) by int_bounds.
  split.
  - apply device_read_eof; auto; lia.
  - apply device_write_beyond; auto; lia.
Qed.

Lemma negative_offset_is_past_the_end_scenario :
  dev_ok scenario_dev
  /\ rw_ret (device_read 0 64 scenario_dev 4 (-1)) = 0
  /\ rw_ret (device_write 0 digits scenario_dev 4 (-1)) = - ENOSPC.
Proof.
  assert (Hok : dev_ok scenario_dev) by (apply dev_okb_sound; reflexivity).
  destruct (negative_offset_is_past_the_end 64 digits scenario_dev 4 (-1)
              Hok ltac:(int_bounds)) as [Hr Hw].
  split; [exact Hok |].
  split; [rewrite Hr | rewrite Hw]; reflexivity.
Defined.

(** X10: what a read can return, for every outcome of the lock and of
    the copy: [-ERESTARTSYS], [-EFAULT], or a byte count between 0 and
    the requested length.  A negative result leaves the device and the
    position alone; a byte count is exactly the number of bytes
    delivered and the distance the position moved, and a position that
    started inside the data never moves past the data end. *)
Theorem device_read_result (lock writable : Z) (d : simplechar_dev)
        (len offset : Z) :
  dev_ok d -> is_ulong len -> is_llong offset ->
  (rw_ret (device_read lock writable d len offset) = - ERESTARTSYS
   \/ rw_ret (device_read lock writable d len offset) = - EFAULT
   \/ 0 <= rw_ret (device_read lock writable d len offset) <= len)
  /\ (rw_ret (device_read lock writable d len offset) < 0 ->
      rw_dev (device_read lock writable d len offset) = d
      /\ rw_offset (device_read lock writable d len offset) = offset)
  /\ (0 <= rw_ret (device_read lock writable d len offset) ->
      Z.of_nat (length (rw_user (device_read lock writable d len offset)))
      = rw_ret (device_read lock writable d len offset)
      /\ rw_offset (device_read lock writable d len offset)
         = offset + rw_ret (device_read lock writable d len offset)
      /\ (0 <= offset <= buffer_len d ->
          rw_offset (device_read lock writable d len offset)
          <= buffer_len d)).
Proof.
  intros Hd Hlen Hoff. pose proof Hd as [Hs Hb Ha Ho Hr Hw].
  destruct (Z.eq_dec lock 0) as [-> | Hl].
  2:{ rewrite device_read_interrupted by exact Hl.
      cbn [rw_ret rw_dev rw_offset rw_user]. unfold ERESTARTSYS.
      repeat split; auto; lia. }
  assert (Heof : offset < 0 \/ buffer_len d <= offset ->
                 device_read 0 writable d len offset = mk_rw 0 d offset [])
    by (intros; apply device_read_eof; auto; lia).
  destruct (Z_lt_le_dec offset 0) as [Hneg | Hpos].
  { rewrite Heof by lia. cbn [rw_ret rw_dev rw_offset rw_user length].
    unfold is_ulong in Hlen. repeat split; auto; lia. }
  destruct (Z_lt_le_dec offset (buffer_len d)) as [Hin | Hout].
  2:{ rewrite Heof by lia. cbn [rw_ret rw_dev rw_offset rw_user length].
      unfold is_ulong in Hlen. repeat split; auto; lia. }
  rewrite device_read_locked by (auto; lia). cbv zeta.
  unfold copy_to_user, at_offset.
  set (n := Z.min len (buffer_len d - offset)).
  assert (Hn : 0 <= n <= len) by (unfold is_ulong in Hlen; lia).
  pose proof (transferred_bounds writable n (proj1 Hn)) as Ht.
  destruct (Z.eqb_spec (n - transferred writable n) 0) as [He | Hne];
    cbn [rw_ret rw_dev rw_offset rw_user]; unfold EFAULT.
  - repeat split; auto; try lia.
    rewrite length_firstn, length_skipn. lia.
  - repeat split; auto; lia.
Qed.

Lemma device_read_result_scenario :
  dev_ok scenario_dev
  /\ rw_offset (device_read 0 64 scenario_dev 20 7) = 10
  /\ rw_ret (device_read 0 64 scenario_dev 20 7) = 3.
Proof.
  assert (Hok : dev_ok scenario_dev) by (apply dev_okb_sound; reflexivity).
  destruct (device_read_result 0 64 scenario_dev 20 7 Hok
              ltac:(int_bounds) ltac:(int_bounds)) as (_ & _ & Hpos).
  destruct (Hpos ltac:(vm_compute; discriminate)) as (_ & Hmove & _).
  split; [exact Hok |]. split; [exact Hmove | reflexivity].
Defined.

(** X11: what a write can return, for every outcome of the lock and of
    the copy: [-ERESTARTSYS], [-ENOSPC], [-EFAULT], or a byte count
    between 0 and the requested length.  A negative result leaves the
    position, the data length and both counters alone; a byte count is
    the distance the position moved, and the position never moves past
    the capacity. *)
Theorem device_write_result (lock : Z) (source : list byte)
        (d : simplechar_dev) (len offset : Z) :
  dev_ok d -> is_ulong len -> is_llong offset ->
  (rw_ret (device_write lock source d len offset) = - ERESTARTSYS
   \/ rw_ret (device_write lock source d len offset) = - ENOSPC
   \/ rw_ret (device_write lock source d len offset) = - EFAULT
   \/ 0 <= rw_ret (device_write lock source d len offset) <= len)
  /\ (rw_ret (device_write lock source d len offset) < 0 ->
      rw_offset (device_write lock source d len offset) = offset
      /\ buffer_len (rw_dev (device_write lock source d len offset))
         = buffer_len d
      /\ write_count (rw_dev (device_write lock source d len offset))
         = write_count d
      /\ read_count (rw_dev (device_write lock source d len offset))
         = read_count d)
  /\ (0 <= rw_ret (device_write lock source d len offset) ->
      rw_offset (device_write lock source d len offset)
      = offset + rw_ret (device_write lock source d len offset)
      /\ rw_offset (device_write lock source d len offset)
         <= buffer_size d
      /\ rw_offset (device_write lock source d len offset)
         <= buffer_len (rw_dev (device_write lock source d len offset))).
Proof.
  intros Hd Hlen Hoff. pose proof Hd as [Hs Hb Ha Ho Hr Hw].
  destruct (Z.eq_dec lock 0) as [-> | Hl].
  2:{ rewrite device_write_interrupted by exact Hl.
      cbn [rw_ret rw_dev rw_offset]. unfold ERESTARTSYS.
      repeat split; auto; lia. }
  assert (Hfar : offset < 0 \/ buffer_size d <= offset ->
                 device_write 0 source d len offset
                 = mk_rw (- ENOSPC) d offset [])
    by (intros; apply device_write_beyond; auto; lia).
  destruct (Z_lt_le_dec offset 0) as [Hneg | Hpos].
  { rewrite Hfar by lia. cbn [rw_ret rw_dev rw_offset]. unfold ENOSPC.
    repeat split; auto; lia. }
  destruct (Z_lt_le_dec offset (buffer_size d)) as [Hin | Hout].
  2:{ rewrite Hfar by lia. cbn [rw_ret rw_dev rw_offset]. unfold ENOSPC.
      repeat split; auto; lia. }
  rewrite device_write_locked by (auto; lia). cbv zeta.
  set (n := Z.min len (buffer_size d - offset)).
  assert (Hn : 0 <= n <= len) by (unfold is_ulong in Hlen; lia).
  destruct (copy_from_user source n) as [uncopied data].
  destruct (uncopied =? 0); cbn; unfold EFAULT; repeat split; auto; lia.
Qed.

Lemma device_write_result_scenario :
  dev_ok scenario_dev
  /\ rw_ret (device_write 0 digits scenario_dev 10 12) = 4
  /\ rw_offset (device_write 0 digits scenario_dev 10 12) <= 16.
Proof.
  assert (Hok : dev_ok scenario_dev) by (apply dev_okb_sound; reflexivity).
  destruct (device_write_result 0 digits scenario_dev 10 12 Hok
              ltac:(int_bounds) ltac:(int_bounds)) as (_ & _ & Hpos).
  destruct (Hpos ltac:(vm_compute; discriminate)) as (_ & Hcap & _).
  split; [exact Hok |]. split; [reflexivity | exact Hcap].
Defined.

(** X12: a write of zero bytes inside the buffer is not a no-op: it
    cannot fault (whatever the source pointer), returns 0 and leaves the
    storage and the position alone, but it is counted as a write and it
    raises the data length to its offset when that lies beyond the
    data. *)
Theorem zero_length_write (source : list byte) (d : simplechar_dev)
        (offset : Z) :
  dev_ok d -> 0 <= offset < buffer_size d ->
  rw_ret (device_write 0 source d 0 offset) = 0
  /\ rw_offset (device_write 0 source d 0 offset) = offset
  /\ buffer (rw_dev (device_write 0 source d 0 offset)) = buffer d
  /\ buffer_len (rw_dev (device_write 0 source d 0 offset))
     = Z.max (buffer_len d) offset
  /\ write_count (rw_dev (device_write 0 source d 0 offset))
     = to_ulong (write_count d + 1).
Proof.
  intros Hd Hoff. pose proof Hd as [Hs Hb Ha Ho Hr Hw].
  rewrite device_write_ok by (auto; int_bounds).
  rewrite Z.min_l by lia. rewrite Z.add_0_r.
  cbn [rw_ret rw_dev rw_offset buffer buffer_len write_count
       set_write_count set_buffer_len set_buffer Z.to_nat firstn].
  repeat split.
  unfold store. cbn [length app]. rewrite Nat.add_0_r.
  apply firstn_skipn.
Qed.

Lemma zero_length_write_scenario :
  dev_ok scenario_dev
  /\ rw_ret (device_write 0 [] scenario_dev 0 14) = 0
  /\ buffer_len (rw_dev (device_write 0 [] scenario_dev 0 14)) = 14.
Proof.
  assert (Hok : dev_ok scenario_dev) by (apply dev_okb_sound; reflexivity).
  destruct (zero_length_write [] scenario_dev 14 Hok ltac:(cbn; lia))
    as (Hret & _ & _ & Hlen & _).
  exact (conj Hok (conj Hret Hlen)).
Defined.

(** X13: a read of zero bytes below the data end returns 0 and delivers
    nothing, exactly like a read at the end of the data, and cannot fault
    (whatever the destination); unlike a read at the end of the data it
    is counted in [read_count]. *)
Theorem zero_length_read (writable : Z) (d : simplechar_dev) (offset : Z) :
  dev_ok d -> 0 <= offset < buffer_len d ->
  rw_ret (device_read 0 writable d 0 offset) = 0
  /\ rw_user (device_read 0 writable d 0 offset) = []
  /\ rw_offset (device_read 0 writable d 0 offset) = offset
  /\ read_count (rw_dev (device_read 0 writable d 0 offset))
     = to_ulong (read_count d + 1)
  /\ read_count (rw_dev (device_read 0 writable d 0 (buffer_len d)))
     = read_count d.
Proof.
  intros Hd Hoff. pose proof Hd as [Hs Hb Ha Ho Hr Hw].
  rewrite device_read_locked by (auto; int_bounds). cbv zeta.
  rewrite Z.min_l by lia. unfold copy_to_user, transferred.
  replace (0 - Z.max 0 (Z.min 0 writable)) with 0 by lia.
  replace (Z.max 0 (Z.min 0 writable)) with 0 by lia.
  rewrite device_read_eof by (auto; int_bounds).
  cbn. rewrite Z.add_0_r. repeat split.
Qed.

Lemma zero_length_read_scenario :
  dev_ok scenario_dev
  /\ rw_ret (device_read 0 0 scenario_dev 0 3) = 0
  /\ read_count (rw_dev (device_read 0 0 scenario_dev 0 3)) = 1
  /\ read_count (rw_dev (device_read 0 0 scenario_dev 0 10)) = 0.
Proof.
  assert (Hok : dev_ok scenario_dev) by (apply dev_okb_sound; reflexivity).
  destruct (zero_length_read 0 scenario_dev 3 Hok ltac:(cbn; lia))
    as (Hret & _ & _ & Hcnt & Heof).
  exact (conj Hok (conj Hret (conj Hcnt Heof))).
Defined.

(** ** Loading the module *)

(** X14: [simplechar_init] leaves a device exactly when the capacity
    parameter is in 1..4096 and both allocations, [alloc_chrdev_region],
    [cdev_add], [class_create] and [device_create] succeed; a failing
    [proc_create] does not matter.  It then returns 0, the device has
    the requested capacity, zero-filled storage, no data and all
    counters at 0, and the globals record the major number and whether
    the proc entry exists. *)
Theorem simplechar_init_success (env : init_env) (bs dl : Z) :
  (simple_dev (simplechar_init env bs dl) <> None
   <-> 1 <= bs <= BUFFER_SIZE_MAX /\ kernel_calls_succeed env)
  /\ (1 <= bs <= BUFFER_SIZE_MAX -> kernel_calls_succeed env ->
      init_ret (simplechar_init env bs dl) = 0
      /\ simple_dev (simplechar_init env bs dl)
         = Some (mk_dev (repeat x00 (Z.to_nat bs)) 0 bs 0 0 0)
      /\ major_number (simplechar_init env bs dl)
         = alloc_chrdev_region_major env
      /\ proc_entry (simplechar_init env bs dl) = proc_create_ok env).
Proof.
  unfold kernel_calls_succeed, simplechar_init, fresh_dev.
  rewrite Z.gtb_ltb.
  destruct (Z.leb_spec bs 0) as [Hle | Hgt]; cbn [orb].
  { split; [split; [intros H; now contradiction H | lia] | lia]. }
  destruct (Z.ltb_spec BUFFER_SIZE_MAX bs) as [Hbig | Hfit].
  { split; [split; [intros H; now contradiction H | lia] | lia]. }
  rewrite (to_ulong_small bs) by int_bounds.
  destruct (kzalloc_dev_ok env); cbn [negb];
    [| split; [split; [intros H; now contradiction H | intuition discriminate]
              | intuition discriminate]].
  destruct (kzalloc_buffer_ok env); cbn [negb];
    [| split; [split; [intros H; now contradiction H | intuition discriminate]
              | intuition discriminate]].
  destruct (Z.ltb_spec (alloc_chrdev_region_ret env) 0);
    [split; [split; [intros H0; now contradiction H0 | lia] | lia] |].
  destruct (Z.ltb_spec (cdev_add_ret env) 0);
    [split; [split; [intros H1; now contradiction H1 | lia] | lia] |].
  destruct (class_create_ret env);
    [| split; [split; [intros H1; now contradiction H1
                      | intuition discriminate]
              | intuition discriminate]].
  destruct (device_create_ret env);
    [| split; [split; [intros H1; now contradiction H1
                      | intuition discriminate]
              | intuition discriminate]].
  cbn. split; [split; [intros _; repeat split; auto; lia | discriminate] |].
  intros _ _. repeat split.
Qed.

Lemma simplechar_init_success_scenario :
  1 <= 16 <= BUFFER_SIZE_MAX
  /\ init_ret (simplechar_init
                 (mk_env true true 0 240 0 Valid_ptr Valid_ptr false) 16 1)
     = 0
  /\ proc_entry (simplechar_init
                   (mk_env true true 0 240 0 Valid_ptr Valid_ptr false) 16 1)
     = false
  /\ simple_dev (simplechar_init
                   (mk_env true true 0 240 0 (Err_ptr (- ENOMEM)) Valid_ptr
                           true) 16 1)
     = None.
Proof.
  assert (Hbs : 1 <= 16 <= BUFFER_SIZE_MAX) by (unfold BUFFER_SIZE_MAX; lia).
  destruct (simplechar_init_success
              (mk_env true true 0 240 0 Valid_ptr Valid_ptr false) 16 1)
    as [_ Hgood].
  destruct (Hgood Hbs ltac:(unfold kernel_calls_succeed; cbn;
                            repeat split; lia)) as (Hret & _ & _ & Hproc).
  split; [exact Hbs |]. split; [exact Hret |]. split; [exact Hproc |].
  reflexivity.
Defined.

(** X15: a failing [simplechar_init] leaks nothing: on every failure
    path past the parameter check, the calls made are the ones that
    completed, the one that failed, and then exactly the releases of what
    the completed ones had obtained, newest first (no clean-up call
    earlier, none missing, none extra).  A successful initialisation
    makes no clean-up call at all. *)
Theorem simplechar_init_unwinds (env : init_env) (bs dl : Z) :
  (simple_dev (simplechar_init env bs dl) = None ->
   init_calls (simplechar_init env bs dl) <> [] ->
   exists (done : list kcall) (failed : kcall),
     init_calls (simplechar_init env bs dl) = done ++ failed :: unwind done
     /\ forallb (fun c => negb (is_cleanup c)) (done ++ [failed]) = true)
  /\ (simple_dev (simplechar_init env bs dl) <> None ->
      forallb (fun c => negb (is_cleanup c))
              (init_calls (simplechar_init env bs dl)) = true).
Proof.
  unfold simplechar_init.
  destruct ((bs <=? 0) || (bs >? BUFFER_SIZE_MAX)).
  { cbn. split; [intros _ H; now contradiction H
                | intros H; now contradiction H]. }
  destruct (kzalloc_dev_ok env); cbn [negb].
  2:{ split; [| intros H; now contradiction H]. intros _ _.
      exists [], Kzalloc_dev. split; reflexivity. }
  destruct (kzalloc_buffer_ok env); cbn [negb].
  2:{ split; [| intros H; now contradiction H]. intros _ _.
      exists [Kzalloc_dev], (Kzalloc_buffer (to_ulong bs)).
      split; reflexivity. }
  destruct (alloc_chrdev_region_ret env <? 0).
  { split; [| intros H; now contradiction H]. intros _ _.
    exists [Kzalloc_dev; Kzalloc_buffer (to_ulong bs); Mutex_init],
           Alloc_chrdev_region.
    split; reflexivity. }
  destruct (cdev_add_ret env <? 0).
  { split; [| intros H; now contradiction H]. intros _ _.
    exists [Kzalloc_dev; Kzalloc_buffer (to_ulong bs); Mutex_init;
            Alloc_chrdev_region; Cdev_init], Cdev_add.
    split; reflexivity. }
  destruct (class_create_ret env).
  2:{ split; [| intros H; now contradiction H]. intros _ _.
      exists [Kzalloc_dev; Kzalloc_buffer (to_ulong bs); Mutex_init;
              Alloc_chrdev_region; Cdev_init; Cdev_add], Class_create.
      split; reflexivity. }
  destruct (device_create_ret env).
  2:{ split; [| intros H; now contradiction H]. intros _ _.
      exists [Kzalloc_dev; Kzalloc_buffer (to_ulong bs); Mutex_init;
              Alloc_chrdev_region; Cdev_init; Cdev_add; Class_create],
             Device_create.
      split; reflexivity. }
  split; [intros H; discriminate H | intros _; reflexivity].
Qed.

Lemma simplechar_init_unwinds_scenario :
  init_calls (simplechar_init
                (mk_env true true 0 240 (- ENOMEM) Valid_ptr Valid_ptr true)
                16 1)
  = [Kzalloc_dev; Kzalloc_buffer 16; Mutex_init; Alloc_chrdev_region;
     Cdev_init; Cdev_add;
     Unregister_chrdev_region; Kfree_buffer; Kfree_dev]
  /\ exists (done : list kcall) (failed : kcall),
      init_calls (simplechar_init
                    (mk_env true true 0 240 (- ENOMEM) Valid_ptr Valid_ptr
                            true) 16 1)
      = done ++ failed :: unwind done.
Proof.
  split; [reflexivity |].
  destruct (simplechar_init_unwinds
              (mk_env true true 0 240 (- ENOMEM) Valid_ptr Valid_ptr true)
              16 1) as [Hfail _].
  destruct (Hfail eq_refl ltac:(discriminate)) as (done & failed & Hc & _).
  exists done, failed. exact Hc.
Defined.

(** ** Devices that can occur *)

Lemma run_ops_keeps_size (ops : list operation) (d : simplechar_dev) :
  dev_ok d -> Forall op_typed ops ->
  buffer_size (run_ops ops d) = buffer_size d.
Proof.
  revert d. induction ops as [| op ops IH]; intros d Hd Ht; [reflexivity |].
  inversion Ht as [| ? ? Hop Hrest]; subst.
  rewrite run_ops_cons, IH by (auto using run_op_dev_ok).
  destruct op; cbn [run_op]; try reflexivity.
  - destruct (device_read_dev lock writable d len offset) as [-> | ->];
      reflexivity.
  - apply device_write_frame.
Qed.

(** X16: every device that can occur (loaded by [simplechar_init] with
    capacity parameter [bs], then any sequence of calls with arguments of
    their C types, whatever the lock and the user copies do) still has
    capacity [bs], an allocation of exactly [bs] bytes, a data length
    between 0 and [bs], and counters within their types. *)
Theorem reachable_device_is_well_formed (env : init_env) (bs dl : Z)
        (d0 : simplechar_dev) (ops : list operation) :
  simple_dev (simplechar_init env bs dl) = Some d0 ->
  Forall op_typed ops ->
  dev_ok (run_ops ops d0)
  /\ buffer_size (run_ops ops d0) = bs
  /\ Z.of_nat (length (buffer (run_ops ops d0))) = bs
  /\ 0 <= buffer_len (run_ops ops d0) <= bs.
Proof.
  intros Hinit Hty.
  apply simplechar_init_dev in Hinit as (-> & Hbs & _).
  destruct (fresh_dev_ok bs Hbs) as [Hd0 Hsz].
  pose proof (run_ops_dev_ok ops _ Hd0 Hty) as Hd.
  pose proof (run_ops_keeps_size ops _ Hd0 Hty) as Hsize.
  rewrite Hsz in Hsize.
  split; [exact Hd |]. split; [exact Hsize |].
  destruct Hd as [_ Hb Ha _ _ _]. rewrite Hsize in *. auto.
Qed.

Lemma reachable_device_is_well_formed_scenario :
  simple_dev (simplechar_init (env_ok 240) 16 1) = Some (fresh_dev 16)
  /\ buffer_size
       (run_ops [Op_open; Op_write 0 digits 10 0; Op_write 0 [x41] 10 12;
                 Op_write (- EINTR) digits 10 0; Op_read 0 2 20 0;
                 Op_write 0 digits 10 (-5); Op_release]
                (fresh_dev 16)) = 16.
Proof.
  assert (Hi : simple_dev (simplechar_init (env_ok 240) 16 1)
               = Some (fresh_dev 16)) by reflexivity.
  assert (Hty : Forall op_typed
                  [Op_open; Op_write 0 digits 10 0; Op_write 0 [x41] 10 12;
                   Op_write (- EINTR) digits 10 0; Op_read 0 2 20 0;
                   Op_write 0 digits 10 (-5); Op_release])
    by (repeat constructor; int_bounds).
  destruct (reachable_device_is_well_formed (env_ok 240) 16 1 _ _ Hi Hty)
    as (_ & Hsz & _).
  exact (conj Hi Hsz).
Defined.

(** ** Unloading the module *)

(** X17: unloading undoes loading: after a successful
    [simplechar_init], [simplechar_exit] removes the proc entry if there
    is one, destroys the device file, and then releases exactly what the
    calls of [simplechar_init] had obtained, newest first (class,
    character device, device number, buffer, device structure), each
    once. *)
Theorem simplechar_exit_undoes_init (env : init_env) (bs dl : Z)
        (d : simplechar_dev) :
  simple_dev (simplechar_init env bs dl) = Some d ->
  simplechar_exit (loaded_globals (simplechar_init env bs dl) d)
  = (if proc_entry (simplechar_init env bs dl) then [Proc_remove] else [])
    ++ Device_destroy
    :: map Release (unwind (init_calls (simplechar_init env bs dl))).
Proof.
  unfold simplechar_init.
  destruct ((bs <=? 0) || (bs >? BUFFER_SIZE_MAX)); [discriminate |].
  destruct (kzalloc_dev_ok env); cbn [negb]; [| discriminate].
  destruct (kzalloc_buffer_ok env); cbn [negb]; [| discriminate].
  destruct (alloc_chrdev_region_ret env <? 0); [discriminate |].
  destruct (cdev_add_ret env <? 0); [discriminate |].
  destruct (class_create_ret env); [| discriminate].
  destruct (device_create_ret env); [| discriminate].
  intros _. unfold simplechar_exit, loaded_globals.
  cbn [g_proc_entry g_simple_device g_simple_class g_simple_dev proc_entry
       init_calls].
  reflexivity.
Qed.

Lemma simplechar_exit_undoes_init_scenario :
  simple_dev (simplechar_init (env_ok 240) 16 1) = Some (fresh_dev 16)
  /\ simplechar_exit
       (loaded_globals (simplechar_init (env_ok 240) 16 1) (fresh_dev 16))
     = [Proc_remove; Device_destroy; Release Class_destroy;
        Release Cdev_del; Release Unregister_chrdev_region;
        Release Kfree_buffer; Release Kfree_dev].
Proof.
  assert (Hi : simple_dev (simplechar_init (env_ok 240) 16 1)
               = Some (fresh_dev 16)) by reflexivity.
  pose proof (simplechar_exit_undoes_init (env_ok 240) 16 1 _ Hi) as H.
  exact (conj Hi H).
Defined.
